(** * TransmittalListMakerRev1: the BOM reconciler

    A shallow embedding of [TransmittalListMakerRev1.py] (the listing of
    PDF drawings, the normalisation of part numbers, the keep-set, the
    missing-parts report, deduplication, filtering, the orchestration
    with its file effects, and of the window the callback of the Run
    button and the text of the saved list), the properties of it that
    the specification states, and further properties of the code. *)

From Stdlib Require Import Ascii QArith DecimalString.
From stdpp Require Import base option list sets gmap strings.

Local Open Scope nat_scope.

(** ** Python strings

    A Python [str] is modelled as a [string] whose characters are the
    code points below 256. *)

Module Py.

Definition code (c : ascii) : N := Ascii.N_of_ascii c.

Definition CR : ascii := Ascii.ascii_of_N 13.
Definition LF : ascii := Ascii.ascii_of_N 10.

(** [str.isspace] on one character, as [str.strip()] uses it: the
    code points 9 to 13, 28 to 32, 133 and 160. *)
Definition isspace (c : ascii) : bool :=
  let n := code c in
  ((9 <=? n) && (n <=? 13) || (28 <=? n) && (n <=? 32)
   || (n =? 133) || (n =? 160))%N.

(** [str.lower] on one character: A to Z, and the capital letters
    192 to 222 of Latin-1 (215, the multiplication sign, is none). *)
Definition lower_char (c : ascii) : ascii :=
  let n := code c in
  if ((65 <=? n) && (n <=? 90)
      || (192 <=? n) && (n <=? 222) && negb (n =? 215))%N
  then Ascii.ascii_of_N (n + 32) else c.

Fixpoint lower (s : string) : string :=
  match s with
  | EmptyString => EmptyString
  | String c s' => String (lower_char c) (lower s')
  end.

(** [s.startswith(p)] *)
Fixpoint startswith (p s : string) : bool :=
  match p, s with
  | EmptyString, _ => true
  | String a p', String b s' => Ascii.eqb a b && startswith p' s'
  | String _ _, EmptyString => false
  end.

(** [s[n:]] *)
Fixpoint slice_from (n : nat) (s : string) : string :=
  match n, s with
  | O, _ => s
  | S n', String _ s' => slice_from n' s'
  | S _, EmptyString => EmptyString
  end.

(** [s[:n]] *)
Fixpoint slice_to (n : nat) (s : string) : string :=
  match n, s with
  | O, _ => EmptyString
  | S n', String c s' => String c (slice_to n' s')
  | S _, EmptyString => EmptyString
  end.

(** [s.endswith(suf)] *)
Definition endswith (suf s : string) : bool :=
  (String.length suf <=? String.length s)
  && String.eqb (slice_from (String.length s - String.length suf) s) suf.

(** [s.replace(c, '')] for a one-character [c] *)
Fixpoint remove_char (c : ascii) (s : string) : string :=
  match s with
  | EmptyString => EmptyString
  | String a s' =>
      if Ascii.eqb a c then remove_char c s' else String a (remove_char c s')
  end.

Fixpoint lstrip (s : string) : string :=
  match s with
  | EmptyString => EmptyString
  | String c s' => if isspace c then lstrip s' else s
  end.

Fixpoint rstrip (s : string) : string :=
  match s with
  | EmptyString => EmptyString
  | String c s' =>
      match rstrip s' with
      | EmptyString => if isspace c then EmptyString else String c EmptyString
      | r => String c r
      end
  end.

(** [s.strip()] *)
Definition strip (s : string) : string := rstrip (lstrip s).

(** [s.rfind(c)] for a one-character [c]; [None] stands for -1. *)
Fixpoint rfind (c : ascii) (s : string) : option nat :=
  match s with
  | EmptyString => None
  | String a s' =>
      match rfind c s' with
      | Some i => Some (S i)
      | None => if Ascii.eqb a c then Some 0 else None
      end
  end.

(** Whether every character of [s] is [c]. *)
Fixpoint all_char (c : ascii) (s : string) : bool :=
  match s with
  | EmptyString => true
  | String a s' => Ascii.eqb a c && all_char c s'
  end.

(** [s.rstrip(c)] for a one-character [c] *)
Fixpoint rstrip_char (c : ascii) (s : string) : string :=
  match s with
  | EmptyString => EmptyString
  | String a s' =>
      match rstrip_char c s' with
      | EmptyString => if Ascii.eqb a c then EmptyString else String a EmptyString
      | r => String a r
      end
  end.

End Py.

(** ** [os.path]

    [posixpath.basename], [posixpath.dirname] and [posixpath.join] (of
    two components); [os.path.splitext] on the name of a directory
    entry. *)

Definition posix_basename (p : string) : string :=
  let i := match Py.rfind "/" p with Some k => S k | None => 0 end in
  Py.slice_from i p.

Definition posix_dirname (p : string) : string :=
  let i := match Py.rfind "/" p with Some k => S k | None => 0 end in
  let head := Py.slice_to i p in
  if negb (String.eqb head "") && negb (Py.all_char "/" head)
  then Py.rstrip_char "/" head
  else head.

Definition posix_join (a b : string) : string :=
  if Py.startswith "/" b then b
  else if String.eqb a "" || Py.endswith "/" a then a +:+ b
  else a +:+ "/" +:+ b.

(** The loop of [genericpath._splitext] that skips the leading dots:
    whether some character of [p] before index [dotIndex] is no dot. *)
Fixpoint stem_before (dotIndex : nat) (p : string) : bool :=
  match dotIndex, p with
  | O, _ => false
  | S n, String c p' =>
      if negb (Ascii.eqb c ".") then true else stem_before n p'
  | S _, EmptyString => false
  end.

(** [os.path.splitext(p)] for a name [p] as [os.listdir] yields it:
    such a name holds no path separator, so [sepIndex] is -1 and
    [dotIndex > sepIndex] says that there is a dot. *)
Definition splitext (p : string) : string * string :=
  match Py.rfind "." p with
  | Some dotIndex =>
      if stem_before dotIndex p
      then (Py.slice_to dotIndex p, Py.slice_from dotIndex p)
      else (p, "")
  | None => (p, "")
  end.

(** The file that a path names, on a POSIX file system without links
    and for a process whose working directory is the root: the
    components between the slashes, without the empty ones and the dots,
    each [..] taking the one before it away, under the root. Two paths
    name the same file exactly when this gives the same name. *)
Fixpoint split_slash (p : string) : list string :=
  match p with
  | EmptyString => [EmptyString]
  | String c p' =>
      if Ascii.eqb c "/" then EmptyString :: split_slash p'
      else match split_slash p' with
           | comp :: comps => String c comp :: comps
           | [] => [String c EmptyString]
           end
  end.

(** The components that are left, the last one first. *)
Definition resolve (comps : list string) : list string :=
  foldl (fun stack comp =>
           if String.eqb comp "" || String.eqb comp "." then stack
           else if String.eqb comp ".." then tail stack
           else comp :: stack)
        [] comps.

Definition posix_canonical (p : string) : string :=
  match resolve (split_slash p) with
  | [] => "/"
  | stack => foldl (fun path comp => path +:+ "/" +:+ comp) "" (rev stack)
  end.

(** ** The data model *)

(** A spreadsheet cell as pandas hands it over: [NaN] for an empty cell,
    or a value, kept by the text that [str()] gives for it. *)
Inductive cell : Type :=
  | NaN
  | Text (s : string).

(** A row of the bill of materials: the two named columns, which the
    input sheet has, and the cells of its other columns. *)
Record row : Type := Row {
  PART_No : cell;
  DESCRIPTION : cell;
  other_columns : list cell
}.

(** The content of a file that the run reads or writes: the temporary
    listing written by [json.dump] and a workbook, by its rows under the
    header. *)
Inductive File : Type :=
  | JsonFile (filenames : list string) (total_count : nat) (directory : string)
  | ExcelFile (df : list row).

(** The exceptions the run can raise, and the lines it prints. *)
Inductive exn : Type :=
  | OSError (path : string)
  | ZeroDivisionError.

Inductive Msg : Type :=
  | ErrorReadingDirectory (e : exn)
  | ReadingPdfFilesFrom (pdf_directory_path : string)
  | NoPdfFilesFound
  | FoundPdfFiles (n : nat)
  | TemporarilySavedPdfListTo (temp_json_path : string)
  | ProcessingExcelFile (excel_file_path : string)
  | OriginalRowCount (n : nat)
  | RemovingDuplicatePartNumbers
  | RemovedDuplicateRows (dupes_removed : Z)
  | FilteredRowCount (n : nat)
  | SimplifiedDataFrame
  | FilteredBomSavedTo (output_file : string)
  | TemporaryJsonFileDeleted
  | Summary
  | OriginalRows (n : nat)
  | DuplicateRowsRemoved (dupes_removed : Z)
  | FilteredRows (n : nat)
  | TotalRowsRemoved (n : Z)
  | PercentageKept (percentage : Q)
  | ColumnsKept
  | ErrorInProcessing (e : exn).

(** What the run changes: the files, each under its canonical name, and
    the console. *)
Record State : Type := MkState {
  files : gmap string File;
  stdout : list Msg
}.

(** What the run asks of the platform: the listing of a directory
    ([None] when [os.listdir] raises), [os.path.isfile], whether a path
    can be opened for writing, the path functions of [os.path], and the
    file that a path names: two paths name the same file, as
    [os.path.samefile] tells, exactly when their canonical names are
    equal. *)
Record OS : Type := MkOS {
  listdir : string -> option (list string);
  isfile : string -> bool;
  writable : string -> bool;
  dirname : string -> string;
  basename : string -> string;
  join : string -> string -> string;
  canonical : string -> string
}.

(** A POSIX platform with the given directories, regular files and
    read-only files, each given by its canonical name. *)
Definition posix (dirs : list (string * list string))
    (regular read_only : list string) : OS :=
  {| listdir d :=
       snd <$> List.find (fun e => String.eqb (fst e) (posix_canonical d)) dirs;
     isfile p := bool_decide (posix_canonical p ∈ regular);
     writable p := negb (bool_decide (posix_canonical p ∈ read_only));
     dirname := posix_dirname;
     basename := posix_basename;
     join := posix_join;
     canonical := posix_canonical |}.

(** ** State and exceptions

    A computation runs from a state to a state and either an exception
    or a value; what was written before an exception stays written. *)

Definition M (A : Type) : Type := State -> State * (exn + A).

Definition ret {A} (a : A) : M A := fun s => (s, inr a).

Definition bind {A B} (m : M A) (k : A -> M B) : M B :=
  fun s =>
    match m s with
    | (s', inr a) => k a s'
    | (s', inl e) => (s', inl e)
    end.

Definition raise {A} (e : exn) : M A := fun s => (s, inl e).

(** [try: body except Exception as e: handler] *)
Definition try_except {A} (body : M A) (handler : exn -> M A) : M A :=
  fun s =>
    match body s with
    | (s', inr a) => (s', inr a)
    | (s', inl e) => handler e s'
    end.

Declare Scope py_scope.
Delimit Scope py_scope with py.
Notation "'let*' x ':=' m 'in' k" := (bind m (fun x => k))
  (at level 10, x name, m at level 100, k at level 200) : py_scope.
Notation "m ';;' k" := (bind m (fun _ => k))
  (at level 100, k at level 200, right associativity) : py_scope.

Definition print (m : Msg) : M unit :=
  fun s => ({| files := files s; stdout := stdout s ++ [m] |}, inr tt).

(** ** Normalisation (lines 93 to 96) *)

Definition normalize_part_number (part_no : cell) : string :=
  match part_no with
  | NaN => ""
  | Text s => Py.strip (Py.remove_char Py.LF (Py.remove_char Py.CR s))
  end.

(** The column [Normalized_Part_No] of line 99. *)
Definition Normalized_Part_No (r : row) : string :=
  normalize_part_number (PART_No r).

(** ** The keep-set (lines 82 to 90) *)

Definition all_parts_to_keep (pdf_files : list string) : gset string :=
  foldl (fun keep part =>
           let keep := {[part]} ∪ keep in
           if Py.startswith "VG-" part
           then {[Py.slice_from 3 part]} ∪ keep
           else {["VG-" +:+ part]} ∪ keep)
        ∅ pdf_files.

(** ** The keys of the sheet (line 102) *)

Definition excel_part_numbers (df : list row) : gset string :=
  list_to_set (Normalized_Part_No <$> df).

(** ** The missing parts (lines 105 to 113) *)

Definition is_missing (excel_part_numbers : gset string) (part : string) : bool :=
  bool_decide (part ∉ excel_part_numbers)
  && (negb (Py.startswith "VG-" part)
      || bool_decide (Py.slice_from 3 part ∉ excel_part_numbers))
  && (negb (Py.startswith "VG-" part)
      || bool_decide ("VG-" +:+ part ∉ excel_part_numbers)).

Definition missing_parts (pdf_files : list string)
    (excel_part_numbers : gset string) : list string :=
  foldl (fun missing part =>
           if is_missing excel_part_numbers part
           then missing ++ [part] else missing)
        [] pdf_files.

(** ** Deduplication (line 117)

    [drop_duplicates(subset=['Normalized_Part_No'], keep='first')]: a
    row goes when an earlier row has its key. *)

Fixpoint drop_duplicates_from (seen : gset string) (df : list row) : list row :=
  match df with
  | [] => []
  | r :: df' =>
      if bool_decide (Normalized_Part_No r ∈ seen)
      then drop_duplicates_from seen df'
      else r :: drop_duplicates_from ({[Normalized_Part_No r]} ∪ seen) df'
  end.

Definition drop_duplicates (df : list row) : list row :=
  drop_duplicates_from ∅ df.

(** ** Filtering (lines 122 to 140) *)

Definition should_keep_row (all_parts_to_keep : gset string) (r : row) : bool :=
  let part_no := Normalized_Part_No r in
  if String.eqb part_no "" then false
  else
    existsb (fun keep_part =>
               String.eqb part_no keep_part
               || Py.startswith "VG-" part_no
                  && String.eqb (Py.slice_from 3 part_no) keep_part)
            (elements all_parts_to_keep).

Definition filtered_df (all_parts_to_keep : gset string) (df_no_dupes : list row)
    : list row :=
  List.filter (should_keep_row all_parts_to_keep) df_no_dupes.

(** ** Projection (line 150) *)

Definition simplified_df (filtered_df : list row) : list row :=
  (fun r => Row (PART_No r) (DESCRIPTION r) []) <$> filtered_df.

(** ** The percentage of line 173

    [filtered_row_count/original_row_count*100]: the true division of
    two integers raises [ZeroDivisionError] on a zero divisor. The value
    is kept exactly; its rounding to a float and to the two decimals of
    the printed line is left to the console. *)
Definition percentage_kept (filtered_row_count original_row_count : nat) : M Q :=
  match original_row_count with
  | O => raise ZeroDivisionError
  | S _ =>
      ret (Qmult (Qmake (Z.of_nat filtered_row_count)
                        (Pos.of_nat original_row_count))
                 (inject_Z 100))
  end.

(** ** The run *)

Section Reconciler.

Context (os : OS).

Local Open Scope py_scope.

(** [open(path, 'w')] with [json.dump], and [to_excel]: the file that
    the path names is written, or the call raises. *)
Definition write_file (path : string) (f : File) : M unit :=
  fun s =>
    if writable os path
    then ({| files := <[canonical os path := f]> (files s);
             stdout := stdout s |}, inr tt)
    else (s, inl (OSError path)).

(** [pd.read_excel(path)] *)
Definition read_excel (path : string) : M (list row) :=
  fun s =>
    match files s !! canonical os path with
    | Some (ExcelFile df) => (s, inr df)
    | _ => (s, inl (OSError path))
    end.

(** [os.path.exists(path)] and [os.remove(path)] *)
Definition path_exists (path : string) : M bool :=
  fun s => (s, inr (bool_decide (is_Some (files s !! canonical os path)))).

Definition remove (path : string) : M unit :=
  fun s => ({| files := delete (canonical os path) (files s);
               stdout := stdout s |}, inr tt).

(** The loop of lines 21 to 26. *)
Definition pdf_file_list (directory_path : string) (items : list string)
    : list string :=
  foldl (fun file_list item =>
           if isfile os (join os directory_path item)
              && Py.endswith ".pdf" (Py.lower item)
           then file_list ++ [fst (splitext item)]
           else file_list)
        [] items.

(** Lines 7 to 31. *)
Definition get_pdf_file_list (directory_path : string) : M (list string) :=
  try_except
    (match listdir os directory_path with
     | Some items => ret (pdf_file_list directory_path items)
     | None => raise (OSError directory_path)
     end)
    (fun e => print (ErrorReadingDirectory e) ;; ret []).

(** The paths of lines 56 to 57 and of lines 154 to 156. *)
Definition temp_json_path_of (excel_file_path : string) : string :=
  let temp_dir := dirname os excel_file_path in
  join os temp_dir "temp_pdf_list.json".

Definition output_file_of (excel_file_path : string) : string :=
  let output_dir := dirname os excel_file_path in
  let output_filename := "FILTERED_" +:+ basename os excel_file_path in
  join os output_dir output_filename.

(** Lines 33 to 181. *)
Definition filter_bom_with_pdf_list (excel_file_path pdf_directory_path : string)
    : M (bool * list string) :=
  try_except
    (print (ReadingPdfFilesFrom pdf_directory_path) ;;
     let* pdf_files := get_pdf_file_list pdf_directory_path in
     match pdf_files with
     | [] => print NoPdfFilesFound ;; ret (false, [])
     | _ :: _ =>
       print (FoundPdfFiles (length pdf_files)) ;;
       let temp_json_path := temp_json_path_of excel_file_path in
       write_file temp_json_path
         (JsonFile pdf_files (length pdf_files) pdf_directory_path) ;;
       print (TemporarilySavedPdfListTo temp_json_path) ;;
       print (ProcessingExcelFile excel_file_path) ;;
       let* df := read_excel excel_file_path in
       let original_row_count := length df in
       print (OriginalRowCount original_row_count) ;;
       let all_parts_to_keep := all_parts_to_keep pdf_files in
       let excel_part_numbers := excel_part_numbers df in
       let missing_parts := missing_parts pdf_files excel_part_numbers in
       print RemovingDuplicatePartNumbers ;;
       let df_no_dupes := drop_duplicates df in
       let dupes_removed :=
         (Z.of_nat original_row_count - Z.of_nat (length df_no_dupes))%Z in
       print (RemovedDuplicateRows dupes_removed) ;;
       let filtered_df := filtered_df all_parts_to_keep df_no_dupes in
       let filtered_row_count := length filtered_df in
       print (FilteredRowCount filtered_row_count) ;;
       let simplified_df := simplified_df filtered_df in
       print SimplifiedDataFrame ;;
       let output_file := output_file_of excel_file_path in
       write_file output_file (ExcelFile simplified_df) ;;
       print (FilteredBomSavedTo output_file) ;;
       let* there := path_exists temp_json_path in
       (if there
        then remove temp_json_path ;; print TemporaryJsonFileDeleted
        else ret tt) ;;
       print Summary ;;
       print (OriginalRows original_row_count) ;;
       print (DuplicateRowsRemoved dupes_removed) ;;
       print (FilteredRows filtered_row_count) ;;
       print (TotalRowsRemoved
                (Z.of_nat original_row_count - Z.of_nat filtered_row_count)%Z) ;;
       let* percentage := percentage_kept filtered_row_count original_row_count in
       print (PercentageKept percentage) ;;
       print ColumnsKept ;;
       ret (true, missing_parts)
     end)
    (fun e => print (ErrorInProcessing e) ;; ret (false, [])).

End Reconciler.

(** ** The window (lines 183 to 334)

    Of [main], the callback [run_process] and what it shows: the message
    boxes, the status line and the dialog of the missing parts, as the
    events the user sees; and the text that [save_missing_parts] writes. *)

(** A line break, ["\n"]. *)
Definition NL : string := String Py.LF EmptyString.




(** Lines 284 to 286: what the loop writes to the file. *)
Definition saved_missing_parts (missing_parts : list string) : string :=
  foldl (fun f part => f +:+ part +:+ NL) EmptyString missing_parts.


Section Window.

Context (os : OS).

Local Open Scope py_scope.


End Window.

(** ** What a computation can do *)



(** From [s] to [s'] no file outside [touched] has changed and the
    console has only grown. *)
Definition frame (touched : list string) (s s' : State) : Prop :=
  (forall path, path ∉ touched -> files s' !! path = files s !! path)
  /\ exists log, stdout s' = stdout s ++ log.

(** Every run of [m], whether it returns or raises, keeps [R] between
    the state it starts in and the state it ends in. *)
Definition keeps {A} (R : State -> State -> Prop) (m : M A) : Prop :=
  forall s s' r, m s = (s', r) -> R s s'.

(** Whether no key of the sheet starts with [VG-]. *)
Definition no_prefixed_key (keys : gset string) : bool :=
  forallb (fun k => negb (Py.startswith "VG-" k)) (elements keys).


(** ** The words of the specification

    The notions that the specification names and the code does not
    define, for the statements below. *)

(** A string with every carriage return and newline taken out. *)
Fixpoint without_line_breaks (s : string) : string :=
  match s with
  | EmptyString => EmptyString
  | String c s' =>
      if Ascii.eqb c Py.CR || Ascii.eqb c Py.LF
      then without_line_breaks s'
      else String c (without_line_breaks s')
  end.

(** Whitespace only. *)
Fixpoint all_space (s : string) : bool :=
  match s with
  | EmptyString => true
  | String c s' => Py.isspace c && all_space s'
  end.

(** No whitespace at the start, none at the end. *)
Definition starts_clean (s : string) : bool :=
  match s with
  | EmptyString => true
  | String c _ => negb (Py.isspace c)
  end.

Fixpoint ends_clean (s : string) : bool :=
  match s with
  | EmptyString => true
  | String c EmptyString => negb (Py.isspace c)
  | String _ s' => ends_clean s'
  end.

Definition trimmed (s : string) : Prop :=
  starts_clean s = true ∧ ends_clean s = true.

(** Whether [c] occurs in [s]. *)
Fixpoint has_char (c : ascii) (s : string) : bool :=
  match s with
  | EmptyString => false
  | String a s' => Ascii.eqb a c || has_char c s'
  end.

(** The prefix-toggled form of an identifier: without [VG-] when it
    starts with [VG-], with [VG-] put in front otherwise. *)
Definition prefix_toggled (x : string) : string :=
  if Py.startswith "VG-" x then Py.slice_from 3 x else "VG-" +:+ x.

(** Section 4.1 on a missing identifier: none of the identifier, its
    stripped form (only if prefixed) and its prefixed form (only if not
    prefixed) is a key of the sheet. *)
Definition missing_by_spec (keys : gset string) (x : string) : Prop :=
  (x ∉ keys)
  ∧ (Py.startswith "VG-" x = true → Py.slice_from 3 x ∉ keys)
  ∧ (Py.startswith "VG-" x = false → "VG-" +:+ x ∉ keys).

(** Section 4.1 on a surviving row: a non-empty key that is in the
    keep-set, or starts with [VG-] and is in the keep-set without it. *)
Definition survives_by_spec (keep : gset string) (r : row) : Prop :=
  Normalized_Part_No r ≠ ""
  ∧ (Normalized_Part_No r ∈ keep
     ∨ (Py.startswith "VG-" (Normalized_Part_No r) = true
        ∧ Py.slice_from 3 (Normalized_Part_No r) ∈ keep)).

(** A name with its last four characters, the suffix [.pdf], removed. *)
Definition without_pdf_suffix (item : string) : string :=
  Py.slice_to (String.length item - 4) item.

(** The first row of a sheet with the key [k]. *)
Definition first_with_key (k : string) (df : list row) : option row :=
  List.find (fun r => String.eqb (Normalized_Part_No r) k) df.

(** Whether the row at position [i] of the sheet is the first one with
    its key: no row before it has the same key. *)
Definition first_of_its_key (df : list row) (i : nat) : bool :=
  match df !! i with
  | Some r =>
      forallb (fun r' => negb (String.eqb (Normalized_Part_No r')
                                          (Normalized_Part_No r)))
              (take i df)
  | None => false
  end.

(** The positions of the sheet, in order, whose row is the first one
    with its key. *)
Definition first_positions (df : list row) : list nat :=
  List.filter (first_of_its_key df) (seq 0 (length df)).

(** ** Scenarios

    The round trip of section 8 of the specification: a directory
    [/pdfs] with [VG-100.pdf] and [200.pdf], and a sheet
    [/bom/BOM.xlsx] with the part numbers [100], [VG-200] and [300]. *)

Definition round_trip_os : OS :=
  posix [("/pdfs", ["VG-100.pdf"; "200.pdf"])]
        ["/pdfs/VG-100.pdf"; "/pdfs/200.pdf"] [].

Definition round_trip_bom : list row :=
  [Row (Text "100") (Text "BRACKET") [];
   Row (Text "VG-200") (Text "PLATE") [];
   Row (Text "300") (Text "COVER") []].

Definition round_trip_state : State :=
  MkState {["/bom/BOM.xlsx" := ExcelFile round_trip_bom]} [].

(** A sheet with a header and no row under it, beside one drawing. *)
Definition one_drawing_os : OS :=
  posix [("/pdfs", ["VG-100.pdf"])] ["/pdfs/VG-100.pdf"] [].

Definition header_only_state : State :=
  MkState {["/bom/BOM.xlsx" := ExcelFile []]} [].

(** A directory whose one regular file is named [.pdf]. *)
Definition dot_pdf_os : OS :=
  posix [("/pdfs", [".pdf"])] ["/pdfs/.pdf"] [].

(** A directory without drawings: a text file and a subdirectory whose
    name ends in [.pdf]. *)
Definition no_drawing_os : OS :=
  posix [("/pdfs", ["notes.txt"; "old.pdf"])] ["/pdfs/notes.txt"] [].


Definition read_only_output_os : OS :=
  posix [("/pdfs", ["VG-100.pdf"; "200.pdf"])]
        ["/pdfs/VG-100.pdf"; "/pdfs/200.pdf"] ["/bom/FILTERED_BOM.xlsx"].

Definition no_sheet_state : State := MkState ∅ [].

(** * Properties *)

(** ** Strings *)

Lemma ascii_eqb_true (a b : ascii) : Ascii.eqb a b = true ↔ a = b.
Proof. apply Ascii.eqb_eq. Qed.

Lemma string_eqb_true (a b : string) : String.eqb a b = true ↔ a = b.
Proof. apply String.eqb_eq. Qed.

Lemma string_app_cons (c : ascii) (s t : string) :
  String c s +:+ t = String c (s +:+ t).
Proof. reflexivity. Qed.

Lemma string_app_empty_l (t : string) : "" +:+ t = t.
Proof. reflexivity. Qed.

Lemma startswith_app (p s : string) :
  Py.startswith p s = true ↔ ∃ t, s = p +:+ t.
Proof.
  revert s. induction p as [|a p IH]; intros s; simpl.
  - split; [intros _; by exists s | done].
  - destruct s as [|b s].
    + split; [done | intros [t Ht]; discriminate Ht].
    + rewrite andb_true_iff, ascii_eqb_true, IH. split.
      * intros [-> [t ->]]. by exists t.
      * intros [t Ht]. rewrite string_app_cons in Ht.
        injection Ht as -> ->. eauto.
Qed.

Lemma slice_from_app (p t : string) :
  Py.slice_from (String.length p) (p +:+ t) = t.
Proof. induction p as [|a p IH]; [done|]. simpl. apply IH. Qed.

Lemma remove_char_line_breaks (s : string) :
  Py.remove_char Py.LF (Py.remove_char Py.CR s) = without_line_breaks s.
Proof.
  induction s as [|c s IH]; [done|]. simpl.
  destruct (Ascii.eqb c Py.CR) eqn:Hcr; simpl; [done|].
  destruct (Ascii.eqb c Py.LF); simpl; by rewrite IH.
Qed.

Lemma has_char_remove_char (c : ascii) (s : string) :
  has_char c (Py.remove_char c s) = false.
Proof.
  induction s as [|a s IH]; [done|]. simpl.
  destruct (Ascii.eqb a c) eqn:E; [done|]. simpl. by rewrite E.
Qed.

Lemma has_char_remove_other (c d : ascii) (s : string) :
  has_char c s = false → has_char c (Py.remove_char d s) = false.
Proof.
  induction s as [|a s IH]; [done|]. simpl.
  intros [Ha Hs]%orb_false_iff.
  destruct (Ascii.eqb a d); simpl; [auto|]. by rewrite Ha, IH.
Qed.

Lemma remove_char_absent (c : ascii) (s : string) :
  has_char c s = false → Py.remove_char c s = s.
Proof.
  induction s as [|a s IH]; [done|]. simpl.
  intros [Ha Hs]%orb_false_iff. by rewrite Ha, IH.
Qed.

Lemma lstrip_split (s : string) :
  ∃ pre, s = pre +:+ Py.lstrip s ∧ all_space pre = true.
Proof.
  induction s as [|c s (pre & Hs & Hpre)]; [by exists ""|]. simpl.
  destruct (Py.isspace c) eqn:Hc.
  - exists (String c pre). rewrite string_app_cons, <- Hs. simpl.
    by rewrite Hc, Hpre.
  - by exists "".
Qed.

Lemma lstrip_starts_clean (s : string) : starts_clean (Py.lstrip s) = true.
Proof.
  induction s as [|c s IH]; [done|]. simpl.
  destruct (Py.isspace c) eqn:Hc; [done|]. simpl. by rewrite Hc.
Qed.

Lemma lstrip_clean (s : string) : starts_clean s = true → Py.lstrip s = s.
Proof. destruct s as [|c s]; [done|]. simpl. by destruct (Py.isspace c). Qed.

Lemma has_char_lstrip (c : ascii) (s : string) :
  has_char c s = false → has_char c (Py.lstrip s) = false.
Proof.
  induction s as [|a s IH]; [done|]. simpl.
  intros [Ha Hs]%orb_false_iff.
  destruct (Py.isspace a); [auto|]. simpl. by rewrite Ha, Hs.
Qed.

Lemma rstrip_split (s : string) :
  ∃ post, s = Py.rstrip s +:+ post ∧ all_space post = true.
Proof.
  induction s as [|c s (post & Hs & Hpost)]; [by exists ""|]. simpl.
  destruct (Py.rstrip s) as [|b r] eqn:Hr.
  - destruct (Py.isspace c) eqn:Hc.
    + exists (String c post). rewrite string_app_empty_l in *. subst s.
      simpl. by rewrite Hc, Hpost.
    + exists post. by rewrite string_app_cons, <- Hs.
  - exists post. by rewrite string_app_cons, <- Hs.
Qed.

Lemma rstrip_ends_clean (s : string) : ends_clean (Py.rstrip s) = true.
Proof.
  induction s as [|c s IH]; [done|]. simpl.
  destruct (Py.rstrip s) as [|b r] eqn:Hr.
  - destruct (Py.isspace c) eqn:Hc; [done|]. simpl. by rewrite Hc.
  - done.
Qed.

Lemma rstrip_starts_clean (s : string) :
  starts_clean s = true → starts_clean (Py.rstrip s) = true.
Proof.
  destruct s as [|c s]; [done|]. simpl. intros Hc.
  destruct (Py.rstrip s); [|done].
  apply negb_true_iff in Hc. rewrite Hc. simpl. by rewrite Hc.
Qed.

Lemma rstrip_clean (s : string) : ends_clean s = true → Py.rstrip s = s.
Proof.
  induction s as [|c s IH]; [done|]. simpl. destruct s as [|b s].
  - simpl. intros Hc. apply negb_true_iff in Hc. by rewrite Hc.
  - intros H. rewrite (IH H). done.
Qed.

Lemma has_char_rstrip (c : ascii) (s : string) :
  has_char c s = false → has_char c (Py.rstrip s) = false.
Proof.
  induction s as [|a s IH]; [done|]. simpl.
  intros [Ha Hs]%orb_false_iff. specialize (IH Hs).
  destruct (Py.rstrip s) as [|b r].
  - destruct (Py.isspace a); [done|]. simpl. by rewrite Ha.
  - simpl in *. by rewrite Ha, IH.
Qed.

Lemma strip_trimmed (s : string) : trimmed (Py.strip s).
Proof.
  split.
  - apply rstrip_starts_clean, lstrip_starts_clean.
  - apply rstrip_ends_clean.
Qed.

Lemma strip_of_trimmed (s : string) : trimmed s → Py.strip s = s.
Proof. intros [Hl Hr]. unfold Py.strip. by rewrite (lstrip_clean _ Hl), rstrip_clean. Qed.

(** Toggling takes the prefixed form of an identifier back to it. *)
Lemma prefix_toggled_prefixed (t : string) :
  prefix_toggled ("VG-" +:+ t) = t.
Proof.
  unfold prefix_toggled.
  assert (Py.startswith "VG-" ("VG-" +:+ t) = true) as ->
    by (apply startswith_app; eauto).
  apply (slice_from_app "VG-").
Qed.

(** ** Normalisation *)

Lemma normalize_no_line_break (s : string) :
  has_char Py.CR (normalize_part_number (Text s)) = false
  ∧ has_char Py.LF (normalize_part_number (Text s)) = false.
Proof.
  unfold normalize_part_number, Py.strip. split.
  - apply has_char_rstrip, has_char_lstrip, has_char_remove_other,
      has_char_remove_char.
  - apply has_char_rstrip, has_char_lstrip, has_char_remove_char.
Qed.

Lemma normalize_trimmed (x : cell) : trimmed (normalize_part_number x).
Proof. destruct x as [|s]; [done|]. apply strip_trimmed. Qed.

(** C7. [normalize_part_number] maps a missing cell to the empty string;
    on any other cell it yields the text with every carriage return and
    newline removed and the whitespace around it cut off (what is cut, on
    the left and on the right, is whitespace only; the result starts and
    ends with none and holds no line break); and normalising a key again
    gives the same key. *)
Theorem normalize_part_number_canonical :
  normalize_part_number NaN = ""
  ∧ (∀ s : string,
       (∃ pre post : string,
          without_line_breaks s
            = pre +:+ normalize_part_number (Text s) +:+ post
          ∧ all_space pre = true ∧ all_space post = true)
       ∧ trimmed (normalize_part_number (Text s))
       ∧ has_char Py.CR (normalize_part_number (Text s)) = false
       ∧ has_char Py.LF (normalize_part_number (Text s)) = false)
  ∧ (∀ x : cell,
       normalize_part_number (Text (normalize_part_number x))
         = normalize_part_number x).
Proof.
  split; [done|]. split.
  - intros s. split; [|split; [apply normalize_trimmed | apply normalize_no_line_break]].
    unfold normalize_part_number, Py.strip.
    rewrite remove_char_line_breaks.
    destruct (lstrip_split (without_line_breaks s)) as (pre & Hpre & Hsp).
    destruct (rstrip_split (Py.lstrip (without_line_breaks s)))
      as (post & Hpost & Hsq).
    exists pre, post. by rewrite <- Hpost, <- Hpre.
  - intros [|s]; [done|].
    destruct (normalize_no_line_break s) as [Hcr Hlf].
    pose proof (normalize_trimmed (Text s)) as Ht.
    set (t := normalize_part_number (Text s)) in *.
    change (Py.strip (Py.remove_char Py.LF (Py.remove_char Py.CR t)) = t).
    rewrite (remove_char_absent _ _ Hcr), (remove_char_absent _ _ Hlf).
    by apply strip_of_trimmed.
Qed.

(** ** The keep-set *)

Lemma all_parts_to_keep_snoc (pdf_files : list string) (x : string) :
  all_parts_to_keep (pdf_files ++ [x])
    = {[prefix_toggled x]} ∪ ({[x]} ∪ all_parts_to_keep pdf_files).
Proof.
  unfold all_parts_to_keep, prefix_toggled. rewrite foldl_snoc.
  by destruct (Py.startswith "VG-" x).
Qed.

Lemma elem_of_all_parts_to_keep (pdf_files : list string) (y : string) :
  y ∈ all_parts_to_keep pdf_files
  ↔ ∃ x, x ∈ pdf_files ∧ (y = x ∨ y = prefix_toggled x).
Proof.
  induction pdf_files as [|x l IH] using rev_ind.
  - split; [set_solver|]. intros (x & Hx & _). by apply elem_of_nil in Hx.
  - rewrite all_parts_to_keep_snoc, !elem_of_union, !elem_of_singleton, IH.
    split.
    + intros [->|[->|(x' & Hx' & Hy)]].
      * exists x. rewrite elem_of_app, list_elem_of_singleton. auto.
      * exists x. rewrite elem_of_app, list_elem_of_singleton. auto.
      * exists x'. rewrite elem_of_app. auto.
    + intros (x' & [Hx'| ->%list_elem_of_singleton]%elem_of_app & Hy).
      * right; right. eauto.
      * destruct Hy; auto.
Qed.

Lemma size_all_parts_to_keep_le (pdf_files : list string) :
  size (all_parts_to_keep pdf_files) ≤ 2 * length pdf_files.
Proof.
  induction pdf_files as [|x l IH] using rev_ind; [done|].
  rewrite all_parts_to_keep_snoc, length_app. simpl.
  pose proof (size_union_alt (C:=gset string) {[prefix_toggled x]}
                ({[x]} ∪ all_parts_to_keep l)) as H1.
  pose proof (size_union_alt (C:=gset string) {[x]} (all_parts_to_keep l)) as H2.
  assert (size (({[x]} ∪ all_parts_to_keep l) ∖ {[prefix_toggled x]})
            ≤ size ({[x]} ∪ all_parts_to_keep l)) as H3
    by (apply subseteq_size; intros z [Hz _]%elem_of_difference; exact Hz).
  assert (size (all_parts_to_keep l ∖ {[x]}) ≤ size (all_parts_to_keep l)) as H4
    by (apply subseteq_size; intros z [Hz _]%elem_of_difference; exact Hz).
  rewrite !size_singleton in *.
  lia.
Qed.

(** C5. The keep-set holds every identifier together with its one
    prefix-toggled form (the identifier without [VG-] when it starts with
    [VG-], with [VG-] in front otherwise) and nothing else, and its size
    lies between the number of distinct identifiers and twice the number
    of identifiers. *)
Theorem all_parts_to_keep_spec (pdf_files : list string) :
  (∀ x, x ∈ pdf_files →
     x ∈ all_parts_to_keep pdf_files
     ∧ prefix_toggled x ∈ all_parts_to_keep pdf_files)
  ∧ (∀ y, y ∈ all_parts_to_keep pdf_files →
       ∃ x, x ∈ pdf_files ∧ (y = x ∨ y = prefix_toggled x))
  ∧ size (list_to_set pdf_files : gset string)
      ≤ size (all_parts_to_keep pdf_files)
  ∧ size (all_parts_to_keep pdf_files) ≤ 2 * length pdf_files.
Proof.
  split; [|split; [|split]].
  - intros x Hx. split; apply elem_of_all_parts_to_keep; eauto.
  - intros y. apply elem_of_all_parts_to_keep.
  - apply subseteq_size. intros x Hx%elem_of_list_to_set.
    apply elem_of_all_parts_to_keep. eauto.
  - apply size_all_parts_to_keep_le.
Qed.

(** ** The missing parts *)

Lemma missing_parts_filter (pdf_files : list string) (keys : gset string) :
  missing_parts pdf_files keys = List.filter (is_missing keys) pdf_files.
Proof.
  unfold missing_parts.
  induction pdf_files as [|x l IH] using rev_ind; [done|].
  rewrite foldl_snoc, IH, List.filter_app. simpl.
  destruct (is_missing keys x); [done|]. by rewrite app_nil_r.
Qed.

(** What line 108 to 112 test: the identifier is no key and, when it
    starts with [VG-], neither its stripped form nor the form with a
    second [VG-] in front is one. *)
Lemma is_missing_true (keys : gset string) (part : string) :
  is_missing keys part = true
  ↔ (part ∉ keys)
    ∧ (Py.startswith "VG-" part = true →
       (Py.slice_from 3 part ∉ keys) ∧ ("VG-" +:+ part ∉ keys)).
Proof.
  unfold is_missing.
  rewrite !andb_true_iff, !orb_true_iff, negb_true_iff, !bool_decide_eq_true.
  destruct (Py.startswith "VG-" part); simpl; intuition discriminate.
Qed.

(** C1. Where the code leaves the claim: with the one identifier [200]
    and the one key [VG-200], the identifier is reported missing, though
    its prefixed form is a key and section 4.1 counts it as found. *)
Theorem missing_parts_ignores_prefixed_form :
  missing_parts ["200"] {["VG-200"]} = ["200"]
  ∧ ¬ missing_by_spec {["VG-200"]} "200".
Proof.
  split; [by vm_compute|].
  intros (_ & _ & H). apply H; [done|]. by apply elem_of_singleton.
Qed.

(** ** Deduplication *)

Lemma drop_duplicates_from_sublist (seen : gset string) (df : list row) :
  drop_duplicates_from seen df `sublist_of` df.
Proof.
  revert seen. induction df as [|r df IH]; intros seen; simpl.
  - constructor.
  - case_bool_decide.
    + apply sublist_cons, IH.
    + apply sublist_skip, IH.
Qed.

Lemma drop_duplicates_from_fresh (seen : gset string) (df : list row) (k : string) :
  k ∈ Normalized_Part_No <$> drop_duplicates_from seen df → k ∉ seen.
Proof.
  revert seen. induction df as [|r df IH]; intros seen; simpl.
  - by intros ?%elem_of_nil.
  - case_bool_decide as Hr.
    + apply IH.
    + rewrite fmap_cons, elem_of_cons. intros [->|Hk]; [done|].
      apply IH in Hk. intros Hs. apply Hk, elem_of_union. by right.
Qed.

Lemma drop_duplicates_from_NoDup (seen : gset string) (df : list row) :
  NoDup (Normalized_Part_No <$> drop_duplicates_from seen df).
Proof.
  revert seen. induction df as [|r df IH]; intros seen; simpl.
  - constructor.
  - case_bool_decide as Hr; [apply IH|].
    rewrite fmap_cons. apply NoDup_cons. split; [|apply IH].
    intros Hk%drop_duplicates_from_fresh. apply Hk, elem_of_union.
    left. by apply elem_of_singleton.
Qed.

Lemma first_with_key_drop_duplicates_from
    (seen : gset string) (df : list row) (k : string) :
  first_with_key k (drop_duplicates_from seen df)
    = if bool_decide (k ∈ seen) then None else first_with_key k df.
Proof.
  unfold first_with_key.
  revert seen. induction df as [|r df IH]; intros seen; simpl.
  - by case_bool_decide.
  - destruct (decide (Normalized_Part_No r ∈ seen)) as [Hr|Hr].
    + rewrite (bool_decide_eq_true_2 _ Hr), IH.
      destruct (decide (k ∈ seen)) as [Hk|Hk].
      * by rewrite (bool_decide_eq_true_2 _ Hk).
      * rewrite (bool_decide_eq_false_2 _ Hk).
        destruct (String.eqb (Normalized_Part_No r) k) eqn:E; [|done].
        apply string_eqb_true in E. by subst k.
    + rewrite (bool_decide_eq_false_2 _ Hr). simpl.
      destruct (String.eqb (Normalized_Part_No r) k) eqn:E.
      * apply string_eqb_true in E. subst k.
        by rewrite (bool_decide_eq_false_2 _ Hr).
      * assert (Normalized_Part_No r ≠ k) as Hne
          by (intros Heq; by rewrite Heq, String.eqb_refl in E).
        rewrite IH. destruct (decide (k ∈ seen)) as [Hk|Hk].
        -- rewrite (bool_decide_eq_true_2 _ Hk), bool_decide_eq_true_2; [done|].
           apply elem_of_union. by right.
        -- rewrite (bool_decide_eq_false_2 _ Hk), bool_decide_eq_false_2; [done|].
           intros [->%elem_of_singleton|]%elem_of_union; done.
Qed.

Lemma list_filter_sublist {A} (f : A → bool) (l : list A) :
  List.filter f l `sublist_of` l.
Proof.
  induction l as [|x l IH]; simpl; [constructor|].
  destruct (f x); [by apply sublist_skip | by apply sublist_cons].
Qed.

Lemma no_earlier_key (pre : list row) (r : row) :
  forallb (fun r' => negb (String.eqb (Normalized_Part_No r')
                                      (Normalized_Part_No r))) pre
  = bool_decide (Normalized_Part_No r
                 ∉ (list_to_set (Normalized_Part_No <$> pre) : gset string)).
Proof.
  induction pre as [|r' pre IH]; simpl.
  - symmetry. apply bool_decide_eq_true_2, not_elem_of_empty.
  - rewrite IH, ?fmap_cons, ?list_to_set_cons.
    destruct (String.eqb (Normalized_Part_No r') (Normalized_Part_No r)) eqn:E;
      simpl.
    + apply string_eqb_true in E. symmetry. apply bool_decide_eq_false_2.
      intros H. apply H, elem_of_union. left. by apply elem_of_singleton.
    + assert (Normalized_Part_No r ≠ Normalized_Part_No r') as Hne
        by (intros Heq; by rewrite Heq, String.eqb_refl in E).
      apply bool_decide_ext. rewrite elem_of_union, elem_of_singleton. tauto.
Qed.

Lemma first_of_its_key_middle (pre df : list row) (r : row) :
  first_of_its_key (pre ++ r :: df) (length pre)
  = bool_decide (Normalized_Part_No r
                 ∉ (list_to_set (Normalized_Part_No <$> pre) : gset string)).
Proof.
  unfold first_of_its_key.
  by rewrite list_lookup_middle, take_app_length, no_earlier_key.
Qed.

(** The deduplicated rows by their positions: with the keys of the rows
    [pre] seen, what is kept of [df] are the rows at the positions of
    [pre ++ df], from the end of [pre] on, that are the first ones with
    their key. *)
Lemma drop_duplicates_from_positions (pre df : list row) :
  Some <$> drop_duplicates_from
             (list_to_set (Normalized_Part_No <$> pre)) df
  = (fun i => (pre ++ df) !! i)
      <$> List.filter (first_of_its_key (pre ++ df))
            (seq (length pre) (length df)).
Proof.
  revert pre. induction df as [|r df IH]; intros pre; [done|].
  assert (pre ++ r :: df = (pre ++ [r]) ++ df) as Hmid
    by (by rewrite <- app_assoc).
  assert (S (length pre) = length (pre ++ [r])) as Hlen
    by (rewrite length_app; simpl; lia).
  cbn [drop_duplicates_from length seq List.filter].
  rewrite first_of_its_key_middle.
  destruct (decide (Normalized_Part_No r
                    ∈ (list_to_set (Normalized_Part_No <$> pre) : gset string)))
    as [Hin|Hout].
  - rewrite (bool_decide_eq_true_2 _ Hin), bool_decide_eq_false_2 by tauto.
    rewrite Hmid, Hlen, <- IH. do 2 f_equal.
    rewrite fmap_app, list_to_set_app_L. simpl. apply set_eq. intros z.
    rewrite !elem_of_union, elem_of_singleton, elem_of_empty.
    split; [tauto|]. intros [H|[->|[]]]; done.
  - rewrite (bool_decide_eq_false_2 _ Hout), (bool_decide_eq_true_2 _ Hout).
    rewrite !fmap_cons. f_equal.
    + by rewrite list_lookup_middle.
    + rewrite Hmid, Hlen, <- IH. do 2 f_equal.
      rewrite fmap_app, list_to_set_app_L. simpl. apply set_eq. intros z.
      rewrite !elem_of_union, elem_of_singleton, elem_of_empty. tauto.
Qed.

Lemma first_of_its_key_true (df : list row) (i : nat) :
  first_of_its_key df i = true
  ↔ ∃ r, df !! i = Some r
       ∧ ∀ j r', j < i → df !! j = Some r' →
                 Normalized_Part_No r' ≠ Normalized_Part_No r.
Proof.
  unfold first_of_its_key. destruct (df !! i) as [r|] eqn:Hi.
  - rewrite forallb_forall. split.
    + intros H. exists r. split; [done|]. intros j r' Hj Hr' Heq.
      assert (In r' (take i df)) as Hin.
      { apply list_elem_of_In, elem_of_take. eauto. }
      apply H in Hin. by rewrite Heq, String.eqb_refl in Hin.
    + intros (r0 & [= <-] & H) r' Hin.
      apply list_elem_of_In, elem_of_take in Hin as (j & Hr' & Hj).
      apply negb_true_iff, String.eqb_neq. eauto.
  - split; [done|]. by intros (r & Hr & _).
Qed.

(** C6. Deduplication keeps exactly the rows at the positions of the
    sheet where a normalised key (the empty key too) occurs for the
    first time, in the order of these positions: for every key the first
    row of the sheet with that key is the first such row of the result;
    what it keeps stands in the order of the sheet; it returns no more
    rows than it got; and no two rows of its result share a key. *)
Theorem drop_duplicates_keeps_first (df : list row) :
  (∀ k, first_with_key k (drop_duplicates df) = first_with_key k df)
  ∧ drop_duplicates df `sublist_of` df
  ∧ length (drop_duplicates df) ≤ length df
  ∧ NoDup (Normalized_Part_No <$> drop_duplicates df)
  ∧ (∀ i j r1 r2,
       drop_duplicates df !! i = Some r1 →
       drop_duplicates df !! j = Some r2 →
       Normalized_Part_No r1 = Normalized_Part_No r2 → i = j)
  ∧ Some <$> drop_duplicates df = (fun i => df !! i) <$> first_positions df
  ∧ first_positions df `sublist_of` seq 0 (length df)
  ∧ (∀ i, i ∈ first_positions df
          ↔ ∃ r, df !! i = Some r
               ∧ ∀ j r', j < i → df !! j = Some r' →
                         Normalized_Part_No r' ≠ Normalized_Part_No r).
Proof.
  unfold drop_duplicates.
  pose proof (drop_duplicates_from_NoDup ∅ df) as Hnd.
  split; [|split; [|split; [|split; [|split; [|split; [|split]]]]]].
  - intros k. rewrite first_with_key_drop_duplicates_from.
    case_bool_decide as Hk; [|done]. by apply not_elem_of_empty in Hk.
  - apply drop_duplicates_from_sublist.
  - apply sublist_length, drop_duplicates_from_sublist.
  - done.
  - intros i j r1 r2 Hi Hj Hk.
    apply (NoDup_lookup _ i j (Normalized_Part_No r1) Hnd).
    + by rewrite list_lookup_fmap, Hi.
    + by rewrite list_lookup_fmap, Hj, Hk.
  - apply (drop_duplicates_from_positions [] df).
  - apply list_filter_sublist.
  - intros i. unfold first_positions.
    rewrite list_elem_of_In, filter_In, first_of_its_key_true, in_seq.
    split; [by intros [_ H]|]. intros (r & Hr & H). split; [|eauto].
    apply lookup_lt_Some in Hr. lia.
Qed.

(** ** Filtering *)

Lemma should_keep_row_true (keep : gset string) (r : row) :
  should_keep_row keep r = true ↔ survives_by_spec keep r.
Proof.
  unfold should_keep_row, survives_by_spec.
  destruct (String.eqb (Normalized_Part_No r) "") eqn:E.
  - apply string_eqb_true in E. split; [done|]. by intros [? _].
  - assert (Normalized_Part_No r ≠ "") as Hne
      by (intros Heq; by rewrite Heq in E).
    rewrite existsb_exists. split.
    + intros (k & Hk & Ht). split; [done|].
      apply list_elem_of_In, elem_of_elements in Hk.
      apply orb_true_iff in Ht as [->%string_eqb_true|Ht]; [by left|].
      apply andb_true_iff in Ht as [Hp ->%string_eqb_true]. by right.
    + intros [_ [Hk|[Hp Hk]]].
      * exists (Normalized_Part_No r). split.
        -- by apply list_elem_of_In, elem_of_elements.
        -- by rewrite String.eqb_refl.
      * exists (Py.slice_from 3 (Normalized_Part_No r)). split.
        -- by apply list_elem_of_In, elem_of_elements.
        -- rewrite Hp, String.eqb_refl. apply orb_true_r.
Qed.

(** C4. The test of a row holds exactly when its normalised key is not
    empty and the key is in the keep-set, or starts with [VG-] and is in
    the keep-set without that prefix; the rows of the filtered sheet are
    the rows of the sheet that pass the test, in the order of the
    sheet. *)
Theorem filtered_df_survivors (keep : gset string) (df : list row) :
  (∀ r, should_keep_row keep r = true ↔ survives_by_spec keep r)
  ∧ (∀ r, r ∈ filtered_df keep df ↔ r ∈ df ∧ survives_by_spec keep r)
  ∧ filtered_df keep df `sublist_of` df.
Proof.
  split; [|split].
  - intros r. apply should_keep_row_true.
  - intros r. unfold filtered_df.
    by rewrite !list_elem_of_In, filter_In, should_keep_row_true.
  - apply list_filter_sublist.
Qed.

(** ** The listing *)

Lemma pdf_file_list_filter (os : OS) (directory_path : string) (items : list string) :
  pdf_file_list os directory_path items
    = (fun item => fst (splitext item))
        <$> List.filter
              (fun item => isfile os (join os directory_path item)
                           && Py.endswith ".pdf" (Py.lower item))
              items.
Proof.
  unfold pdf_file_list.
  induction items as [|x l IH] using rev_ind; [done|].
  rewrite foldl_snoc, IH, List.filter_app, fmap_app. simpl.
  destruct (isfile os (join os directory_path x)
            && Py.endswith ".pdf" (Py.lower x)); [done|].
  by rewrite app_nil_r.
Qed.

Lemma slice_to_from (n : nat) (s : string) :
  s = Py.slice_to n s +:+ Py.slice_from n s.
Proof.
  revert s. induction n as [|n IH]; intros [|c s]; simpl; try done.
  by rewrite string_app_cons, <- IH.
Qed.

Lemma slice_from_lower (n : nat) (s : string) :
  Py.slice_from n (Py.lower s) = Py.lower (Py.slice_from n s).
Proof. revert s. induction n as [|n IH]; intros [|c s]; simpl; auto. Qed.

Lemma lower_length (s : string) : String.length (Py.lower s) = String.length s.
Proof. induction s as [|c s IH]; simpl; auto. Qed.

Lemma lower_char_dot (c : ascii) : Py.lower_char c = "."%char → c = "."%char.
Proof.
  destruct c as [[] [] [] [] [] [] [] []]; vm_compute; intros H;
    first [reflexivity | discriminate H].
Qed.

Lemma lower_char_not_dot (c : ascii) :
  Py.lower_char c ≠ "."%char → Ascii.eqb c "." = false.
Proof.
  intros H. destruct (Ascii.eqb c ".") eqn:E; [|done].
  apply ascii_eqb_true in E. subst c. by destruct H.
Qed.

Lemma rfind_dot_suffix (t : string) (c2 c3 c4 : ascii) :
  Ascii.eqb c2 "." = false → Ascii.eqb c3 "." = false →
  Ascii.eqb c4 "." = false →
  Py.rfind "." (t +:+ String "." (String c2 (String c3 (String c4 ""))))
    = Some (String.length t).
Proof.
  intros H2 H3 H4. induction t as [|a t IH].
  - simpl. by rewrite H2, H3, H4.
  - rewrite string_app_cons. simpl. by rewrite IH.
Qed.

Lemma stem_before_app (t u : string) :
  stem_before (String.length t) (t +:+ u) = negb (Py.all_char "." t).
Proof.
  induction t as [|a t IH]; [done|]. rewrite string_app_cons. simpl.
  destruct (Ascii.eqb a "."); simpl; [apply IH | done].
Qed.

Lemma slice_to_app (t u : string) : Py.slice_to (String.length t) (t +:+ u) = t.
Proof.
  induction t as [|a t IH]; [done|]. rewrite string_app_cons. simpl.
  by rewrite IH.
Qed.

(** What [os.path.splitext] leaves of a name that ends in [.pdf],
    whatever the case of its letters: the name without that suffix when
    some character before the suffix is no dot, and the whole name when
    only dots stand before it. *)
Lemma splitext_pdf (item : string) :
  Py.endswith ".pdf" (Py.lower item) = true →
  fst (splitext item)
    = if Py.all_char "." (without_pdf_suffix item)
      then item else without_pdf_suffix item.
Proof.
  unfold Py.endswith, without_pdf_suffix.
  rewrite lower_length, slice_from_lower.
  intros [Hlen Heq]%andb_true_iff.
  apply Nat.leb_le in Hlen. apply string_eqb_true in Heq.
  change (String.length ".pdf") with 4 in *.
  set (n := String.length item - 4) in *.
  pose proof (slice_to_from n item) as Hsplit.
  set (t := Py.slice_to n item) in *.
  destruct (Py.slice_from n item) as [|c1 [|c2 [|c3 [|c4 [|c5 u]]]]];
    cbn [Py.lower] in Heq; try discriminate Heq.
  injection Heq as H1 H2 H3 H4.
  apply lower_char_dot in H1. subst c1.
  assert (Ascii.eqb c2 "." = false) as E2
    by (apply lower_char_not_dot; by rewrite H2).
  assert (Ascii.eqb c3 "." = false) as E3
    by (apply lower_char_not_dot; by rewrite H3).
  assert (Ascii.eqb c4 "." = false) as E4
    by (apply lower_char_not_dot; by rewrite H4).
  clearbody t. clear Hlen. subst n. subst item.
  unfold splitext.
  rewrite (rfind_dot_suffix t c2 c3 c4 E2 E3 E4), stem_before_app.
  destruct (Py.all_char "." t); simpl; [done|].
  apply slice_to_app.
Qed.

(** The listing, then: of the names of regular files that end in
    [.pdf], in their order, each without that suffix unless only dots
    stand before it. *)
Lemma pdf_file_list_stems (os : OS) (directory_path : string) (items : list string) :
  pdf_file_list os directory_path items
    = (fun item => if Py.all_char "." (without_pdf_suffix item)
                   then item else without_pdf_suffix item)
        <$> List.filter
              (fun item => isfile os (join os directory_path item)
                           && Py.endswith ".pdf" (Py.lower item))
              items.
Proof.
  rewrite pdf_file_list_filter.
  induction items as [|x l IH]; [done|]. simpl.
  destruct (isfile os (join os directory_path x)) eqn:Hf; simpl; [|apply IH].
  destruct (Py.endswith ".pdf" (Py.lower x)) eqn:He; [|apply IH].
  rewrite !fmap_cons, IH. by rewrite (splitext_pdf x He).
Qed.

(** C8. Where the code leaves the claim: a regular file named [.pdf]
    ends in [.pdf], and the listing emits its name whole, [.pdf], not the
    name with the suffix removed, which is the empty string. *)
Theorem get_pdf_file_list_keeps_bare_suffix (s : State) :
  get_pdf_file_list dot_pdf_os "/pdfs" s = (s, inr [".pdf"])
  ∧ isfile dot_pdf_os (join dot_pdf_os "/pdfs" ".pdf") = true
  ∧ Py.endswith ".pdf" (Py.lower ".pdf") = true
  ∧ without_pdf_suffix ".pdf" = "".
Proof. repeat split; by vm_compute. Qed.

(** ** The run *)

(** C2. Where the code leaves the claim: on the round trip of section 8
    the run succeeds and writes exactly the rows [100] and [VG-200], and
    [300] is dropped, but it reports the identifier [200] as missing:
    the missing-parts list is not empty. *)
Theorem round_trip_reports_200_missing :
  pdf_file_list round_trip_os "/pdfs" ["VG-100.pdf"; "200.pdf"]
    = ["VG-100"; "200"]
  ∧ filtered_df (all_parts_to_keep ["VG-100"; "200"])
      (drop_duplicates round_trip_bom)
    = [Row (Text "100") (Text "BRACKET") [];
       Row (Text "VG-200") (Text "PLATE") []]
  ∧ missing_parts ["VG-100"; "200"] (excel_part_numbers round_trip_bom)
    = ["200"]
  ∧ snd (filter_bom_with_pdf_list round_trip_os "/bom/BOM.xlsx" "/pdfs"
           round_trip_state)
    = inr (true, ["200"])
  ∧ files (fst (filter_bom_with_pdf_list round_trip_os "/bom/BOM.xlsx" "/pdfs"
                  round_trip_state))
      !! "/bom/FILTERED_BOM.xlsx"
    = Some (ExcelFile [Row (Text "100") (Text "BRACKET") [];
                       Row (Text "VG-200") (Text "PLATE") []]).
Proof. repeat split; by vm_compute. Qed.

(** C3. Where the code leaves the claim: the division of line 173 has no
    guard. With a zero row count it raises [ZeroDivisionError], and on a
    sheet without rows the run reaches it: the exception is what the
    handler of line 179 prints, and the run returns failure. *)
Theorem percentage_kept_unguarded :
  (∀ filtered_row_count s,
     percentage_kept filtered_row_count 0 s = (s, inl ZeroDivisionError))
  ∧ snd (filter_bom_with_pdf_list one_drawing_os "/bom/BOM.xlsx" "/pdfs"
           header_only_state)
    = inr (false, [])
  ∧ last (stdout (fst (filter_bom_with_pdf_list one_drawing_os
                         "/bom/BOM.xlsx" "/pdfs" header_only_state)))
    = Some (ErrorInProcessing ZeroDivisionError).
Proof. repeat split; by vm_compute. Qed.

Section ReconcilerProperties.

Context (os : OS).

Lemma get_pdf_file_list_listing (directory_path : string) (items : list string)
    (s : State) :
  listdir os directory_path = Some items →
  get_pdf_file_list os directory_path s
    = (s, inr (pdf_file_list os directory_path items)).
Proof. intros H. unfold get_pdf_file_list, try_except, ret. by rewrite H. Qed.

Lemma get_pdf_file_list_error (directory_path : string) (s : State) :
  listdir os directory_path = None →
  get_pdf_file_list os directory_path s
    = (MkState (files s)
         (stdout s ++ [ErrorReadingDirectory (OSError directory_path)]),
       inr []).
Proof.
  intros H. unfold get_pdf_file_list, try_except, raise. by rewrite H.
Qed.

(** The enumeration changes no file, and what it yields does not depend
    on the state it runs in. *)
Lemma get_pdf_file_list_pure (directory_path : string) (s s' : State) :
  files (fst (get_pdf_file_list os directory_path s)) = files s
  ∧ snd (get_pdf_file_list os directory_path s)
    = snd (get_pdf_file_list os directory_path s').
Proof.
  destruct (listdir os directory_path) as [items|] eqn:H.
  - by rewrite !(get_pdf_file_list_listing _ _ _ H).
  - by rewrite !(get_pdf_file_list_error _ _ H).
Qed.

(** C9. When the enumeration of the identifiers yields the empty
    sequence, the run returns failure with an empty missing-parts list,
    and it leaves every file as it was: no output file is written, and
    no temporary listing either. The last line printed reports that no
    PDF file was found. *)
Theorem no_identifier_no_output
    (excel_file_path pdf_directory_path : string) (s : State) :
  snd (get_pdf_file_list os pdf_directory_path s) = inr [] →
  snd (filter_bom_with_pdf_list os excel_file_path pdf_directory_path s)
    = inr (false, [])
  ∧ files (fst (filter_bom_with_pdf_list os excel_file_path
                  pdf_directory_path s))
    = files s
  ∧ last (stdout (fst (filter_bom_with_pdf_list os excel_file_path
                         pdf_directory_path s)))
    = Some NoPdfFilesFound.
Proof.
  intros H.
  unfold filter_bom_with_pdf_list, try_except, bind.
  set (s1 := fst (print (ReadingPdfFilesFrom pdf_directory_path) s)).
  change (print (ReadingPdfFilesFrom pdf_directory_path) s)
    with (s1, @inr exn unit tt).
  destruct (get_pdf_file_list_pure pdf_directory_path s1 s) as [Hf Hr].
  rewrite H in Hr.
  destruct (get_pdf_file_list os pdf_directory_path s1) as [s2 [e|l]] eqn:E;
    simpl in Hr, Hf; [done|]. injection Hr as ->.
  simpl. rewrite Hf. repeat split. apply last_snoc.
Qed.

(** One step of a run, for each kind of step. *)

Lemma run_print {A} (m : Msg) (k : unit → M A) (s : State) :
  bind (print m) k s = k tt (MkState (files s) (stdout s ++ [m])).
Proof. reflexivity. Qed.

Lemma run_write_file {A} (path : string) (f : File) (k : unit → M A) (s : State) :
  writable os path = true →
  bind (write_file os path f) k s
    = k tt (MkState (<[canonical os path := f]> (files s)) (stdout s)).
Proof. intros H. unfold bind, write_file. by rewrite H. Qed.

Lemma run_read_excel {A} (path : string) (df : list row) (k : list row → M A)
    (s : State) :
  files s !! canonical os path = Some (ExcelFile df) →
  bind (read_excel os path) k s = k df s.
Proof. intros H. unfold bind, read_excel. by rewrite H. Qed.

Lemma run_path_exists {A} (path : string) (k : bool → M A) (s : State) :
  bind (path_exists os path) k s
    = k (bool_decide (is_Some (files s !! canonical os path))) s.
Proof. reflexivity. Qed.

Lemma run_get_pdf_file_list {A} (directory_path : string) (items : list string)
    (k : list string → M A) (s : State) :
  listdir os directory_path = Some items →
  bind (get_pdf_file_list os directory_path) k s
    = k (pdf_file_list os directory_path items) s.
Proof.
  intros H. unfold bind. by rewrite (get_pdf_file_list_listing _ _ _ H).
Qed.

Lemma run_remove_then {A B} (path : string) (k1 : unit → M A) (k2 : A → M B)
    (s : State) :
  bind (bind (remove os path) k1) k2 s
    = bind (k1 tt) k2
        (MkState (delete (canonical os path) (files s)) (stdout s)).
Proof. reflexivity. Qed.

Lemma run_percentage_kept_zero {A} (filtered_row_count : nat) (k : Q → M A)
    (s : State) :
  bind (percentage_kept filtered_row_count 0) k s = (s, inl ZeroDivisionError).
Proof. reflexivity. Qed.

(** C10. A failure of the run does not say that no output sheet was
    written. On a sheet with a header and no row, with at least one
    identifier found, the run writes the [FILTERED_] file, deletes the
    temporary listing, prints the first lines of the summary, and only
    then the division of line 173 raises: the run returns failure with
    an empty missing-parts list, and the output file is there. *)
Theorem header_only_sheet_written_then_failure
    (excel_file_path pdf_directory_path : string) (s : State)
    (items : list string) (p : string) (ps : list string) :
  listdir os pdf_directory_path = Some items →
  pdf_file_list os pdf_directory_path items = p :: ps →
  files s !! canonical os excel_file_path = Some (ExcelFile []) →
  writable os (temp_json_path_of os excel_file_path) = true →
  writable os (output_file_of os excel_file_path) = true →
  canonical os (temp_json_path_of os excel_file_path)
    ≠ canonical os excel_file_path →
  canonical os (temp_json_path_of os excel_file_path)
    ≠ canonical os (output_file_of os excel_file_path) →
  snd (filter_bom_with_pdf_list os excel_file_path pdf_directory_path s)
    = inr (false, [])
  ∧ files (fst (filter_bom_with_pdf_list os excel_file_path
                  pdf_directory_path s))
      !! canonical os (output_file_of os excel_file_path)
    = Some (ExcelFile [])
  ∧ stdout (fst (filter_bom_with_pdf_list os excel_file_path
                   pdf_directory_path s))
    = stdout s
      ++ [ReadingPdfFilesFrom pdf_directory_path;
          FoundPdfFiles (length (p :: ps));
          TemporarilySavedPdfListTo (temp_json_path_of os excel_file_path);
          ProcessingExcelFile excel_file_path;
          OriginalRowCount 0;
          RemovingDuplicatePartNumbers;
          RemovedDuplicateRows 0;
          FilteredRowCount 0;
          SimplifiedDataFrame;
          FilteredBomSavedTo (output_file_of os excel_file_path);
          TemporaryJsonFileDeleted;
          Summary;
          OriginalRows 0;
          DuplicateRowsRemoved 0;
          FilteredRows 0;
          TotalRowsRemoved 0;
          ErrorInProcessing ZeroDivisionError].
Proof.
  intros Hdir Hpdf Hbom Hwt Hwo Hte Hto.
  unfold filter_bom_with_pdf_list, try_except.
  rewrite run_print, (run_get_pdf_file_list _ _ _ _ Hdir), Hpdf.
  rewrite run_print, (run_write_file _ _ _ _ Hwt), !run_print.
  rewrite (run_read_excel _ [] _ _); cycle 1.
  { cbn [files]. by rewrite lookup_insert_ne. }
  change (drop_duplicates []) with (@nil row).
  change (filtered_df _ []) with (@nil row).
  change (simplified_df []) with (@nil row).
  rewrite !run_print, (run_write_file _ _ _ _ Hwo), run_print.
  rewrite run_path_exists. cbn [files].
  rewrite bool_decide_eq_true_2; cycle 1.
  { rewrite lookup_insert_ne, lookup_insert_eq by done. eauto. }
  cbv beta iota. rewrite run_remove_then, !run_print.
  rewrite run_percentage_kept_zero, run_print. unfold ret.
  cbn [files stdout fst snd length].
  split; [done|]. split.
  - by rewrite lookup_delete_ne, lookup_insert_eq.
  - by rewrite <- !app_assoc.
Qed.

End ReconcilerProperties.

(** ** Instances

    The two theorems above that rest on assumptions, at a directory
    without drawings and at a sheet without rows. *)

Lemma no_identifier_no_output_witness :
  snd (get_pdf_file_list no_drawing_os "/pdfs" header_only_state) = inr []
  ∧ snd (filter_bom_with_pdf_list no_drawing_os "/bom/BOM.xlsx" "/pdfs"
           header_only_state)
    = inr (false, [])
  ∧ files (fst (filter_bom_with_pdf_list no_drawing_os "/bom/BOM.xlsx"
                  "/pdfs" header_only_state))
    = files header_only_state
  ∧ last (stdout (fst (filter_bom_with_pdf_list no_drawing_os
                         "/bom/BOM.xlsx" "/pdfs" header_only_state)))
    = Some NoPdfFilesFound.
Proof.
  split; [vm_compute; reflexivity|].
  apply (no_identifier_no_output no_drawing_os "/bom/BOM.xlsx" "/pdfs"
           header_only_state).
  vm_compute; reflexivity.
Defined.

Lemma header_only_sheet_written_then_failure_witness :
  (listdir one_drawing_os "/pdfs" = Some ["VG-100.pdf"]
   ∧ pdf_file_list one_drawing_os "/pdfs" ["VG-100.pdf"] = ["VG-100"]
   ∧ files header_only_state !! canonical one_drawing_os "/bom/BOM.xlsx"
     = Some (ExcelFile [])
   ∧ writable one_drawing_os (temp_json_path_of one_drawing_os "/bom/BOM.xlsx")
     = true
   ∧ writable one_drawing_os (output_file_of one_drawing_os "/bom/BOM.xlsx")
     = true
   ∧ canonical one_drawing_os (temp_json_path_of one_drawing_os "/bom/BOM.xlsx")
     ≠ canonical one_drawing_os "/bom/BOM.xlsx"
   ∧ canonical one_drawing_os (temp_json_path_of one_drawing_os "/bom/BOM.xlsx")
     ≠ canonical one_drawing_os (output_file_of one_drawing_os "/bom/BOM.xlsx"))
  ∧ snd (filter_bom_with_pdf_list one_drawing_os "/bom/BOM.xlsx" "/pdfs"
           header_only_state)
    = inr (false, [])
  ∧ files (fst (filter_bom_with_pdf_list one_drawing_os "/bom/BOM.xlsx"
                  "/pdfs" header_only_state))
      !! "/bom/FILTERED_BOM.xlsx"
    = Some (ExcelFile []).
Proof.
  assert (canonical one_drawing_os (temp_json_path_of one_drawing_os "/bom/BOM.xlsx")
     ≠ canonical one_drawing_os "/bom/BOM.xlsx")
    as Hte by (vm_compute; discriminate).
  assert (canonical one_drawing_os (temp_json_path_of one_drawing_os "/bom/BOM.xlsx")
     ≠ canonical one_drawing_os (output_file_of one_drawing_os "/bom/BOM.xlsx"))
    as Hto by (vm_compute; discriminate).
  split.
  - repeat split; try (vm_compute; reflexivity); assumption.
  - destruct (header_only_sheet_written_then_failure one_drawing_os
                "/bom/BOM.xlsx" "/pdfs" header_only_state
                ["VG-100.pdf"] "VG-100" [])
      as (Hr & Hf & _); try (vm_compute; reflexivity); try assumption.
    split; [exact Hr | exact Hf].
Defined.

(** * Further properties of the code *)

(** ** Which rows a set of drawings keeps *)

(** X1. With the keep-set built from the identifiers, a row is kept
    exactly when its key is not empty and is, for some identifier, the
    identifier, its prefix-toggled form, or either of the two with [VG-]
    put in front. *)
Theorem should_keep_row_identifiers (pdf_files : list string) (r : row) :
  should_keep_row (all_parts_to_keep pdf_files) r = true
  ↔ Normalized_Part_No r ≠ ""
    ∧ ∃ x, x ∈ pdf_files
        ∧ (Normalized_Part_No r = x
           ∨ Normalized_Part_No r = prefix_toggled x
           ∨ Normalized_Part_No r = "VG-" +:+ x
           ∨ Normalized_Part_No r = "VG-" +:+ prefix_toggled x).
Proof.
  rewrite should_keep_row_true. unfold survives_by_spec.
  set (k := Normalized_Part_No r). rewrite !elem_of_all_parts_to_keep.
  split.
  - intros [Hne [(x & Hx & [H|H])|[Hp (x & Hx & H)]]]; split; try done;
      exists x; (split; [done|]); auto.
    apply startswith_app in Hp as [t Ht]. rewrite Ht in *.
    change 3 with (String.length "VG-") in H. rewrite slice_from_app in H.
    destruct H as [->| ->]; auto.
  - intros [Hne (x & Hx & [H|[H|[H|H]]])]; (split; [done|]).
    + left. eauto.
    + left. eauto.
    + right. rewrite H. split; [apply startswith_app; eauto|].
      change 3 with (String.length "VG-"). rewrite slice_from_app. eauto.
    + right. rewrite H. split; [apply startswith_app; eauto|].
      change 3 with (String.length "VG-"). rewrite slice_from_app. eauto.
Qed.

(** ** Blank part numbers *)

Lemma isspace_line_break (c : ascii) :
  Ascii.eqb c Py.CR || Ascii.eqb c Py.LF = true → Py.isspace c = true.
Proof.
  intros [H|H]%orb_true_iff; apply ascii_eqb_true in H; by subst c.
Qed.

Lemma all_space_without_line_breaks (s : string) :
  all_space (without_line_breaks s) = all_space s.
Proof.
  induction s as [|c s IH]; [done|]. simpl.
  destruct (Ascii.eqb c Py.CR || Ascii.eqb c Py.LF) eqn:E.
  - by rewrite (isspace_line_break c E), IH.
  - simpl. by rewrite IH.
Qed.

Lemma all_space_lstrip (s : string) : all_space (Py.lstrip s) = all_space s.
Proof.
  induction s as [|c s IH]; [done|]. simpl.
  destruct (Py.isspace c) eqn:E; simpl; [done|]. by rewrite E.
Qed.

Lemma rstrip_empty (s : string) : Py.rstrip s = "" ↔ all_space s = true.
Proof.
  induction s as [|c s IH]; [done|]. simpl.
  destruct (Py.rstrip s) as [|b t] eqn:Hr.
  - destruct (Py.isspace c); simpl.
    + split; [intros _; by apply IH | done].
    + split; done.
  - split; [done|]. intros [_ H]%andb_true_iff. apply IH in H. done.
Qed.

Lemma strip_empty (s : string) : Py.strip s = "" ↔ all_space s = true.
Proof. unfold Py.strip. by rewrite rstrip_empty, all_space_lstrip. Qed.

(** X2. The normalised key is empty exactly for a missing cell and for
    a cell that holds nothing but whitespace and line breaks; a row with
    such a part number is kept by no keep-set. *)
Theorem blank_part_number_never_kept :
  (∀ x, normalize_part_number x = ""
        ↔ match x with NaN => True | Text s => all_space s = true end)
  ∧ (∀ keep r,
       match PART_No r with NaN => True | Text s => all_space s = true end →
       should_keep_row keep r = false).
Proof.
  assert (∀ x, normalize_part_number x = ""
               ↔ match x with NaN => True | Text s => all_space s = true end)
    as Hblank.
  { intros [|s]; [done|]. unfold normalize_part_number.
    by rewrite remove_char_line_breaks, strip_empty,
      all_space_without_line_breaks. }
  split; [done|]. intros keep r Hr. apply Hblank in Hr.
  unfold should_keep_row, Normalized_Part_No. by rewrite Hr.
Qed.

(** ** The order of the listing *)

(** X3. The keep-set, and with it the filtered sheet, depends on which
    identifiers the listing holds, not on their order or on how often one
    occurs. *)
Theorem keep_set_order_free (l l' : list string) (df : list row) :
  (list_to_set l : gset string) = list_to_set l' →
  all_parts_to_keep l = all_parts_to_keep l'
  ∧ filtered_df (all_parts_to_keep l) df = filtered_df (all_parts_to_keep l') df.
Proof.
  intros H.
  assert (all_parts_to_keep l = all_parts_to_keep l') as ->; [|done].
  apply set_eq. intros y. rewrite !elem_of_all_parts_to_keep.
  assert (∀ x, x ∈ l ↔ x ∈ l') as Hx.
  { intros x. by rewrite <- !(elem_of_list_to_set (C:=gset string)), H. }
  split; intros (x & Hin & Hy); exists x; by rewrite Hx in *.
Qed.

(** ** Deduplication, once more *)

Lemma drop_duplicates_from_distinct (seen : gset string) (df : list row) :
  NoDup (Normalized_Part_No <$> df) →
  (∀ k, k ∈ Normalized_Part_No <$> df → k ∉ seen) →
  drop_duplicates_from seen df = df.
Proof.
  revert seen. induction df as [|r df IH]; intros seen Hnd Hfresh; [done|].
  rewrite fmap_cons in Hnd, Hfresh. apply NoDup_cons in Hnd as [Hr Hnd].
  simpl. rewrite bool_decide_eq_false_2.
  - f_equal. apply IH; [done|]. intros k Hk.
    intros [->%elem_of_singleton|Hs]%elem_of_union; [done|].
    apply (Hfresh k); [|done]. apply elem_of_cons. by right.
  - apply Hfresh, elem_of_cons. by left.
Qed.

(** X4. A sheet whose keys are all different comes back from the
    deduplication as it went in; so deduplicating twice is deduplicating
    once. *)
Theorem drop_duplicates_idempotent (df : list row) :
  (NoDup (Normalized_Part_No <$> df) → drop_duplicates df = df)
  ∧ drop_duplicates (drop_duplicates df) = drop_duplicates df.
Proof.
  assert (∀ l, NoDup (Normalized_Part_No <$> l) → drop_duplicates l = l) as H.
  { intros l Hl. apply drop_duplicates_from_distinct; [done|].
    intros k _. apply not_elem_of_empty. }
  split; [apply H|]. apply H, drop_duplicates_from_NoDup.
Qed.

Lemma drop_duplicates_from_absent (seen : gset string) (k : string)
    (df : list row) :
  (∀ r, r ∈ df → Normalized_Part_No r ≠ k) →
  drop_duplicates_from ({[k]} ∪ seen) df = drop_duplicates_from seen df.
Proof.
  revert seen. induction df as [|r df IH]; intros seen Hk; [done|]. simpl.
  assert (Normalized_Part_No r ≠ k) as Hr by (apply Hk, elem_of_cons; by left).
  assert (∀ r', r' ∈ df → Normalized_Part_No r' ≠ k) as Hdf
    by (intros r' Hr'; apply Hk, elem_of_cons; by right).
  destruct (decide (Normalized_Part_No r ∈ seen)) as [Hs|Hs].
  - rewrite (bool_decide_eq_true_2 _ Hs), bool_decide_eq_true_2.
    + by apply IH.
    + apply elem_of_union. by right.
  - rewrite (bool_decide_eq_false_2 _ Hs), bool_decide_eq_false_2.
    + f_equal. rewrite <- (IH ({[Normalized_Part_No r]} ∪ seen) Hdf).
      f_equal. apply set_eq. intros z. rewrite !elem_of_union. tauto.
    + intros [Hz%elem_of_singleton|Hz]%elem_of_union; done.
Qed.

Lemma filter_drop_duplicates_from (P : row → bool) (seen : gset string)
    (df : list row) :
  (∀ r r', Normalized_Part_No r = Normalized_Part_No r' → P r = P r') →
  List.filter P (drop_duplicates_from seen df)
    = drop_duplicates_from seen (List.filter P df).
Proof.
  intros HP. revert seen. induction df as [|r df IH]; intros seen; [done|].
  simpl. destruct (decide (Normalized_Part_No r ∈ seen)) as [Hs|Hs].
  - rewrite (bool_decide_eq_true_2 _ Hs), IH.
    destruct (P r); [|done]. simpl. by rewrite (bool_decide_eq_true_2 _ Hs).
  - rewrite (bool_decide_eq_false_2 _ Hs). simpl.
    destruct (P r) eqn:Hr; simpl.
    + by rewrite (bool_decide_eq_false_2 _ Hs), IH.
    + rewrite IH. apply drop_duplicates_from_absent.
      intros r' [_ Hr']%list_elem_of_In%filter_In Heq.
      rewrite (HP _ _ Heq) in Hr'. congruence.
Qed.

(** X5. Deduplication and filtering commute: the rows that the run
    writes are the same whether the duplicates go first, as in the code,
    or the filter does. *)
Theorem filter_dedup_commute (keep : gset string) (df : list row) :
  filtered_df keep (drop_duplicates df) = drop_duplicates (filtered_df keep df).
Proof.
  apply filter_drop_duplicates_from. intros r r' H.
  unfold should_keep_row. by rewrite H.
Qed.

(** ** The missing parts, in general *)

(** X6. An identifier is reported missing exactly when it is in the
    listing, is no key of the sheet and, if it starts with [VG-], neither
    its stripped form nor the form with a second [VG-] in front is a key.
    The report keeps the order of the listing and its repetitions. *)
Theorem missing_parts_reported (pdf_files : list string) (keys : gset string) :
  (∀ x, x ∈ missing_parts pdf_files keys
        ↔ x ∈ pdf_files
          ∧ (x ∉ keys)
          ∧ (Py.startswith "VG-" x = true →
             (Py.slice_from 3 x ∉ keys) ∧ ("VG-" +:+ x ∉ keys)))
  ∧ missing_parts pdf_files keys `sublist_of` pdf_files
  ∧ (∀ more, missing_parts (pdf_files ++ more) keys
             = missing_parts pdf_files keys ++ missing_parts more keys).
Proof.
  split; [|split].
  - intros x.
    rewrite missing_parts_filter, list_elem_of_In, filter_In, is_missing_true.
    by rewrite <- list_elem_of_In.
  - rewrite missing_parts_filter. apply list_filter_sublist.
  - intros more. rewrite !missing_parts_filter. apply List.filter_app.
Qed.

Lemma no_prefixed_key_spec (keys : gset string) (k : string) :
  no_prefixed_key keys = true → k ∈ keys → Py.startswith "VG-" k = false.
Proof.
  unfold no_prefixed_key. rewrite forallb_forall. intros H Hk.
  apply negb_true_iff, H, list_elem_of_In, elem_of_elements, Hk.
Qed.

(** X7. On a sheet none of whose keys starts with [VG-], the report is
    the one of section 4.1 of the specification: an identifier of the
    listing is reported exactly when neither it nor, if it is prefixed,
    its stripped form is a key. *)
Theorem missing_parts_without_prefixed_keys
    (pdf_files : list string) (keys : gset string) :
  no_prefixed_key keys = true →
  ∀ x, x ∈ missing_parts pdf_files keys
       ↔ x ∈ pdf_files ∧ missing_by_spec keys x.
Proof.
  intros Hkeys x.
  assert ("VG-" +:+ x ∉ keys) as Hvg.
  { intros Hin. apply (no_prefixed_key_spec _ _ Hkeys) in Hin.
    assert (Py.startswith "VG-" ("VG-" +:+ x) = true)
      by (apply startswith_app; eauto).
    congruence. }
  rewrite missing_parts_filter, list_elem_of_In, filter_In, is_missing_true.
  rewrite <- list_elem_of_In. unfold missing_by_spec.
  destruct (Py.startswith "VG-" x); intuition discriminate.
Qed.

Lemma missing_parts_without_prefixed_keys_witness :
  no_prefixed_key (excel_part_numbers [Row (Text "100") NaN []]) = true
  ∧ ∀ x, x ∈ missing_parts ["VG-100"; "200"]
                 (excel_part_numbers [Row (Text "100") NaN []])
         ↔ x ∈ ["VG-100"; "200"]
           ∧ missing_by_spec (excel_part_numbers [Row (Text "100") NaN []]) x.
Proof.
  split; [vm_compute; reflexivity|].
  apply (missing_parts_without_prefixed_keys ["VG-100"; "200"]
           (excel_part_numbers [Row (Text "100") NaN []])).
  vm_compute; reflexivity.
Defined.

Lemma keep_set_order_free_witness :
  (list_to_set ["VG-100"; "200"; "VG-100"] : gset string)
    = list_to_set ["200"; "VG-100"]
  ∧ all_parts_to_keep ["VG-100"; "200"; "VG-100"]
    = all_parts_to_keep ["200"; "VG-100"]
  ∧ filtered_df (all_parts_to_keep ["VG-100"; "200"; "VG-100"]) round_trip_bom
    = filtered_df (all_parts_to_keep ["200"; "VG-100"]) round_trip_bom.
Proof.
  split; [vm_compute; reflexivity|].
  apply (keep_set_order_free ["VG-100"; "200"; "VG-100"] ["200"; "VG-100"]
           round_trip_bom).
  vm_compute; reflexivity.
Defined.

(** ** The sheet that is written *)

Lemma simplified_df_keys (df : list row) :
  Normalized_Part_No <$> simplified_df df = Normalized_Part_No <$> df.
Proof. unfold simplified_df. rewrite <- list_fmap_compose. done. Qed.

Lemma pipeline_sublist (keep : gset string) (df : list row) :
  filtered_df keep (drop_duplicates df) `sublist_of` df.
Proof.
  etrans; [apply list_filter_sublist | apply drop_duplicates_from_sublist].
Qed.

(** X8. The rows that the run writes, for any keep-set and sheet: no
    more rows than the sheet has; no two with the same key; each one the
    part number and description of a row of the sheet that passes the
    test, with no other column; and none with an empty key. *)
Theorem written_rows (keep : gset string) (df : list row) :
  length (simplified_df (filtered_df keep (drop_duplicates df))) ≤ length df
  ∧ NoDup (Normalized_Part_No
             <$> simplified_df (filtered_df keep (drop_duplicates df)))
  ∧ (∀ r', r' ∈ simplified_df (filtered_df keep (drop_duplicates df)) →
       Normalized_Part_No r' ≠ ""
       ∧ other_columns r' = []
       ∧ ∃ r, r ∈ df
           ∧ should_keep_row keep r = true
           ∧ PART_No r' = PART_No r
           ∧ DESCRIPTION r' = DESCRIPTION r).
Proof.
  split; [|split].
  - unfold simplified_df. rewrite length_fmap.
    apply sublist_length, pipeline_sublist.
  - rewrite simplified_df_keys.
    apply (sublist_NoDup _ (Normalized_Part_No <$> drop_duplicates df)).
    + apply drop_duplicates_from_NoDup.
    + apply fmap_sublist, list_filter_sublist.
  - intros r' (r & -> & Hr)%list_elem_of_fmap.
    pose proof (elem_of_sublist _ _ _ Hr (pipeline_sublist keep df)) as Hdf.
    apply list_elem_of_In, filter_In in Hr as [_ Hkeep].
    split; [|split; [done|]].
    + apply should_keep_row_true in Hkeep as [Hne _]. exact Hne.
    + exists r. done.
Qed.

(** X9. On a sheet with at least one row the division of line 173 does
    not raise, and the percentage it yields lies between 0 and 100. *)
Theorem percentage_kept_bounds (keep : gset string) (r : row) (df : list row)
    (s : State) :
  ∃ q, percentage_kept
         (length (filtered_df keep (drop_duplicates (r :: df))))
         (length (r :: df)) s
       = (s, inr q)
       ∧ (0 <= q)%Q ∧ (q <= 100)%Q.
Proof.
  pose proof (sublist_length _ _ (pipeline_sublist keep (r :: df))) as Hle.
  set (f := length (filtered_df keep (drop_duplicates (r :: df)))) in *.
  change (length (r :: df)) with (S (length df)) in *.
  eexists. split; [reflexivity|].
  unfold Qle, Qmult, inject_Z. cbn [Qnum Qden].
  rewrite Pos.mul_1_r. split; lia.
Qed.

(** ** The run, in general *)



Section RunProperties.

Context (os : OS).

Lemma run_percentage_kept_pos {A} (filtered_row_count n : nat) (k : Q → M A)
    (s : State) :
  bind (percentage_kept filtered_row_count (S n)) k s
    = k (Qmult (Qmake (Z.of_nat filtered_row_count) (Pos.of_nat (S n)))
               (inject_Z 100)) s.
Proof. reflexivity. Qed.

Lemma run_write_file_refused {A} (path : string) (f : File) (k : unit → M A)
    (s : State) :
  writable os path = false →
  bind (write_file os path f) k s = (s, inl (OSError path)).
Proof. intros H. unfold bind, write_file. by rewrite H. Qed.

Lemma run_read_excel_refused {A} (path : string) (k : list row → M A)
    (s : State) :
  files s !! canonical os path = None →
  bind (read_excel os path) k s = (s, inl (OSError path)).
Proof. intros H. unfold bind, read_excel. by rewrite H. Qed.


Lemma run_read_excel_listing {A} (path : string) (filenames : list string)
    (total_count : nat) (directory : string) (k : list row → M A) (s : State) :
  files s !! canonical os path
    = Some (JsonFile filenames total_count directory) →
  bind (read_excel os path) k s = (s, inl (OSError path)).
Proof. intros H. unfold bind, read_excel. by rewrite H. Qed.


Lemma run_success_state
    (excel_file_path pdf_directory_path : string) (s : State)
    (items : list string) (p : string) (ps : list string)
    (r : row) (df : list row) :
  listdir os pdf_directory_path = Some items →
  pdf_file_list os pdf_directory_path items = p :: ps →
  files s !! canonical os excel_file_path = Some (ExcelFile (r :: df)) →
  writable os (temp_json_path_of os excel_file_path) = true →
  writable os (output_file_of os excel_file_path) = true →
  canonical os (temp_json_path_of os excel_file_path)
    ≠ canonical os excel_file_path →
  canonical os (temp_json_path_of os excel_file_path)
    ≠ canonical os (output_file_of os excel_file_path) →
  snd (filter_bom_with_pdf_list os excel_file_path pdf_directory_path s)
    = inr (true, missing_parts (p :: ps) (excel_part_numbers (r :: df)))
  ∧ files (fst (filter_bom_with_pdf_list os excel_file_path
                  pdf_directory_path s))
    = delete (canonical os (temp_json_path_of os excel_file_path))
        (<[canonical os (output_file_of os excel_file_path) :=
             ExcelFile
               (simplified_df
                  (filtered_df (all_parts_to_keep (p :: ps))
                     (drop_duplicates (r :: df))))]>
           (<[canonical os (temp_json_path_of os excel_file_path) :=
                JsonFile (p :: ps) (length (p :: ps)) pdf_directory_path]>
              (files s)))
  ∧ last (stdout (fst (filter_bom_with_pdf_list os excel_file_path
                         pdf_directory_path s)))
    = Some ColumnsKept.
Proof.
  intros Hdir Hpdf Hbom Hwt Hwo Hte Hto.
  unfold filter_bom_with_pdf_list, try_except.
  rewrite run_print, (run_get_pdf_file_list _ _ _ _ _ Hdir), Hpdf.
  rewrite run_print, (run_write_file _ _ _ _ _ Hwt), !run_print.
  rewrite (run_read_excel _ _ (r :: df) _ _); cycle 1.
  { cbn [files]. by rewrite lookup_insert_ne. }
  rewrite !run_print, (run_write_file _ _ _ _ _ Hwo), run_print.
  rewrite run_path_exists. cbn [files].
  rewrite bool_decide_eq_true_2; cycle 1.
  { rewrite lookup_insert_ne, lookup_insert_eq by done. eauto. }
  cbv beta iota. rewrite run_remove_then, !run_print.
  change (length (r :: df)) with (S (length df)).
  rewrite run_percentage_kept_pos, !run_print. unfold ret.
  cbn [files stdout fst snd].
  split; [done|]. split; [done|]. apply last_snoc.
Qed.



(** X13. When there is no sheet at the path, the run returns failure
    with an empty list and leaves the temporary listing behind: it is the
    one file the run has changed, and it holds the identifiers; the last
    line printed is the error on the sheet. *)
Theorem sheet_missing_listing_left
    (excel_file_path pdf_directory_path : string) (s : State)
    (items : list string) (p : string) (ps : list string) :
  listdir os pdf_directory_path = Some items →
  pdf_file_list os pdf_directory_path items = p :: ps →
  writable os (temp_json_path_of os excel_file_path) = true →
  files s !! canonical os excel_file_path = None →
  canonical os (temp_json_path_of os excel_file_path)
    ≠ canonical os excel_file_path →
  snd (filter_bom_with_pdf_list os excel_file_path pdf_directory_path s)
    = inr (false, [])
  ∧ files (fst (filter_bom_with_pdf_list os excel_file_path
                  pdf_directory_path s))
    = <[canonical os (temp_json_path_of os excel_file_path) :=
          JsonFile (p :: ps) (length (p :: ps)) pdf_directory_path]> (files s)
  ∧ last (stdout (fst (filter_bom_with_pdf_list os excel_file_path
                         pdf_directory_path s)))
    = Some (ErrorInProcessing (OSError excel_file_path)).
Proof.
  intros Hdir Hpdf Hwt Hbom Hte.
  unfold filter_bom_with_pdf_list, try_except.
  rewrite run_print, (run_get_pdf_file_list _ _ _ _ _ Hdir), Hpdf.
  rewrite run_print, (run_write_file _ _ _ _ _ Hwt), !run_print.
  rewrite run_read_excel_refused; cycle 1.
  { cbn [files]. by rewrite lookup_insert_ne. }
  rewrite run_print. unfold ret. cbn [files stdout fst snd].
  split; [done|]. split; [done|]. apply last_snoc.
Qed.

(** X14. When the output sheet cannot be written, the run returns
    failure with an empty list and, again, leaves the temporary listing
    behind as its one change; the last line printed is the error on the
    output path. *)
Theorem output_refused_listing_left
    (excel_file_path pdf_directory_path : string) (s : State)
    (items : list string) (p : string) (ps : list string) (df : list row) :
  listdir os pdf_directory_path = Some items →
  pdf_file_list os pdf_directory_path items = p :: ps →
  writable os (temp_json_path_of os excel_file_path) = true →
  files s !! canonical os excel_file_path = Some (ExcelFile df) →
  canonical os (temp_json_path_of os excel_file_path)
    ≠ canonical os excel_file_path →
  writable os (output_file_of os excel_file_path) = false →
  snd (filter_bom_with_pdf_list os excel_file_path pdf_directory_path s)
    = inr (false, [])
  ∧ files (fst (filter_bom_with_pdf_list os excel_file_path
                  pdf_directory_path s))
    = <[canonical os (temp_json_path_of os excel_file_path) :=
          JsonFile (p :: ps) (length (p :: ps)) pdf_directory_path]> (files s)
  ∧ last (stdout (fst (filter_bom_with_pdf_list os excel_file_path
                         pdf_directory_path s)))
    = Some (ErrorInProcessing
              (OSError (output_file_of os excel_file_path))).
Proof.
  intros Hdir Hpdf Hwt Hbom Hte Hwo.
  unfold filter_bom_with_pdf_list, try_except.
  rewrite run_print, (run_get_pdf_file_list _ _ _ _ _ Hdir), Hpdf.
  rewrite run_print, (run_write_file _ _ _ _ _ Hwt), !run_print.
  rewrite (run_read_excel _ _ df _ _); cycle 1.
  { cbn [files]. by rewrite lookup_insert_ne. }
  rewrite !run_print, (run_write_file_refused _ _ _ _ Hwo), run_print.
  unfold ret. cbn [files stdout fst snd].
  split; [done|]. split; [done|]. apply last_snoc.
Qed.

(** X22. A run that succeeds can be repeated: run again on the files it
    left, with the sheet a file that is neither of the two it writes, it
    returns the same missing parts and leaves the files as the first run
    left them. *)
Theorem filter_bom_with_pdf_list_repeatable
    (excel_file_path pdf_directory_path : string) (s : State)
    (items : list string) (p : string) (ps : list string)
    (r : row) (df : list row) :
  listdir os pdf_directory_path = Some items →
  pdf_file_list os pdf_directory_path items = p :: ps →
  files s !! canonical os excel_file_path = Some (ExcelFile (r :: df)) →
  writable os (temp_json_path_of os excel_file_path) = true →
  writable os (output_file_of os excel_file_path) = true →
  canonical os (temp_json_path_of os excel_file_path)
    ≠ canonical os excel_file_path →
  canonical os (temp_json_path_of os excel_file_path)
    ≠ canonical os (output_file_of os excel_file_path) →
  canonical os (output_file_of os excel_file_path)
    ≠ canonical os excel_file_path →
  snd (filter_bom_with_pdf_list os excel_file_path pdf_directory_path
         (fst (filter_bom_with_pdf_list os excel_file_path
                 pdf_directory_path s)))
    = snd (filter_bom_with_pdf_list os excel_file_path pdf_directory_path s)
  ∧ files (fst (filter_bom_with_pdf_list os excel_file_path
                  pdf_directory_path
                  (fst (filter_bom_with_pdf_list os excel_file_path
                          pdf_directory_path s))))
    = files (fst (filter_bom_with_pdf_list os excel_file_path
                    pdf_directory_path s)).
Proof.
  intros Hdir Hpdf Hbom Hwt Hwo Hte Hto Hoe.
  destruct (run_success_state excel_file_path pdf_directory_path s items
              p ps r df Hdir Hpdf Hbom Hwt Hwo Hte Hto) as (Hr & Hf & _).
  set (s1 := fst (filter_bom_with_pdf_list os excel_file_path
                    pdf_directory_path s)) in *.
  assert (files s1 !! canonical os excel_file_path
          = Some (ExcelFile (r :: df))) as Hbom1.
  { rewrite Hf. by rewrite lookup_delete_ne, !lookup_insert_ne. }
  destruct (run_success_state excel_file_path pdf_directory_path s1 items
              p ps r df Hdir Hpdf Hbom1 Hwt Hwo Hte Hto) as (Hr1 & Hf1 & _).
  split; [by rewrite Hr1, Hr|].
  rewrite Hf1. apply map_eq. intros path.
  destruct (decide (path = canonical os (temp_json_path_of os excel_file_path)))
    as [->|Hpt].
  { rewrite Hf. by rewrite !lookup_delete_eq. }
  rewrite lookup_delete_ne by done.
  destruct (decide (path = canonical os (output_file_of os excel_file_path)))
    as [->|Hpo].
  { rewrite Hf. by rewrite lookup_delete_ne, !lookup_insert_eq. }
  by rewrite !lookup_insert_ne.
Qed.

(** X23. When the path of the sheet names the same file as the path of
    the temporary listing, the run overwrites the sheet with the listing
    before it reads it: it returns failure with an empty list, and the
    file of the sheet holds the listing. *)
Theorem sheet_aliased_with_listing_overwritten
    (excel_file_path pdf_directory_path : string) (s : State)
    (items : list string) (p : string) (ps : list string) :
  listdir os pdf_directory_path = Some items →
  pdf_file_list os pdf_directory_path items = p :: ps →
  writable os (temp_json_path_of os excel_file_path) = true →
  canonical os (temp_json_path_of os excel_file_path)
    = canonical os excel_file_path →
  snd (filter_bom_with_pdf_list os excel_file_path pdf_directory_path s)
    = inr (false, [])
  ∧ files (fst (filter_bom_with_pdf_list os excel_file_path
                  pdf_directory_path s))
    = <[canonical os excel_file_path :=
          JsonFile (p :: ps) (length (p :: ps)) pdf_directory_path]> (files s)
  ∧ last (stdout (fst (filter_bom_with_pdf_list os excel_file_path
                         pdf_directory_path s)))
    = Some (ErrorInProcessing (OSError excel_file_path)).
Proof.
  intros Hdir Hpdf Hwt Halias.
  unfold filter_bom_with_pdf_list, try_except.
  rewrite run_print, (run_get_pdf_file_list _ _ _ _ _ Hdir), Hpdf.
  rewrite run_print, (run_write_file _ _ _ _ _ Hwt), !run_print.
  rewrite (run_read_excel_listing _ (p :: ps) (length (p :: ps))
             pdf_directory_path); cycle 1.
  { cbn [files]. by rewrite Halias, lookup_insert_eq. }
  rewrite run_print. unfold ret. cbn [files stdout fst snd].
  split; [done|]. split; [by rewrite Halias|]. apply last_snoc.
Qed.

End RunProperties.

(** ** Instances of the runs above

    The round trip of section 8, on a platform that lets the run write,
    on one that refuses the temporary listing, without the sheet, and on
    one that refuses the output. *)



Lemma sheet_missing_listing_left_witness :
  (listdir round_trip_os "/pdfs" = Some ["VG-100.pdf"; "200.pdf"]
   ∧ pdf_file_list round_trip_os "/pdfs" ["VG-100.pdf"; "200.pdf"]
     = ["VG-100"; "200"]
   ∧ writable round_trip_os (temp_json_path_of round_trip_os "/bom/BOM.xlsx")
     = true
   ∧ files no_sheet_state !! canonical round_trip_os "/bom/BOM.xlsx" = None
   ∧ canonical round_trip_os (temp_json_path_of round_trip_os "/bom/BOM.xlsx")
     ≠ canonical round_trip_os "/bom/BOM.xlsx")
  ∧ snd (filter_bom_with_pdf_list round_trip_os "/bom/BOM.xlsx" "/pdfs"
           no_sheet_state)
    = inr (false, [])
  ∧ files (fst (filter_bom_with_pdf_list round_trip_os "/bom/BOM.xlsx"
                  "/pdfs" no_sheet_state))
      !! "/bom/temp_pdf_list.json"
    = Some (JsonFile ["VG-100"; "200"] 2 "/pdfs").
Proof.
  assert (canonical round_trip_os (temp_json_path_of round_trip_os "/bom/BOM.xlsx")
     ≠ canonical round_trip_os "/bom/BOM.xlsx")
    as Hte by (vm_compute; discriminate).
  split.
  - repeat split; try (vm_compute; reflexivity); assumption.
  - destruct (sheet_missing_listing_left round_trip_os
                "/bom/BOM.xlsx" "/pdfs" no_sheet_state
                ["VG-100.pdf"; "200.pdf"] "VG-100" ["200"])
      as (Hr & Hf & _); try (vm_compute; reflexivity); try assumption.
    split; [exact Hr|]. rewrite Hf. vm_compute; reflexivity.
Defined.

Lemma output_refused_listing_left_witness :
  (listdir read_only_output_os "/pdfs" = Some ["VG-100.pdf"; "200.pdf"]
   ∧ pdf_file_list read_only_output_os "/pdfs" ["VG-100.pdf"; "200.pdf"]
     = ["VG-100"; "200"]
   ∧ writable read_only_output_os
       (temp_json_path_of read_only_output_os "/bom/BOM.xlsx")
     = true
   ∧ files round_trip_state !! canonical read_only_output_os "/bom/BOM.xlsx"
     = Some (ExcelFile round_trip_bom)
   ∧ canonical read_only_output_os
       (temp_json_path_of read_only_output_os "/bom/BOM.xlsx")
     ≠ canonical read_only_output_os "/bom/BOM.xlsx"
   ∧ writable read_only_output_os
       (output_file_of read_only_output_os "/bom/BOM.xlsx")
     = false)
  ∧ snd (filter_bom_with_pdf_list read_only_output_os "/bom/BOM.xlsx"
           "/pdfs" round_trip_state)
    = inr (false, [])
  ∧ files (fst (filter_bom_with_pdf_list read_only_output_os "/bom/BOM.xlsx"
                  "/pdfs" round_trip_state))
      !! "/bom/FILTERED_BOM.xlsx"
    = None.
Proof.
  assert (canonical read_only_output_os
            (temp_json_path_of read_only_output_os "/bom/BOM.xlsx")
     ≠ canonical read_only_output_os "/bom/BOM.xlsx")
    as Hte by (vm_compute; discriminate).
  split.
  - repeat split; try (vm_compute; reflexivity); assumption.
  - destruct (output_refused_listing_left read_only_output_os
                "/bom/BOM.xlsx" "/pdfs" round_trip_state
                ["VG-100.pdf"; "200.pdf"] "VG-100" ["200"] round_trip_bom)
      as (Hr & Hf & _); try (vm_compute; reflexivity); try assumption.
    split; [exact Hr|]. rewrite Hf. vm_compute; reflexivity.
Defined.

(** ** The listing, in general *)

Lemma all_char_empty_or (c : ascii) (s : string) :
  Py.all_char c s = false → s ≠ "".
Proof. by destruct s. Qed.

Section ListingProperties.

Context (os : OS).


(** X16. No identifier of the listing is the empty string. *)
Theorem pdf_file_list_no_empty_identifier
    (directory_path : string) (items : list string) (x : string) :
  x ∈ pdf_file_list os directory_path items → x ≠ "".
Proof.
  rewrite pdf_file_list_stems.
  intros (item & -> & Hitem)%list_elem_of_fmap.
  apply list_elem_of_In, filter_In in Hitem as [_ [_ He]%andb_true_iff].
  destruct (Py.all_char "." (without_pdf_suffix item)) eqn:E.
  - intros ->. discriminate He.
  - by apply (all_char_empty_or ".").
Qed.

End ListingProperties.

Lemma pdf_file_list_no_empty_identifier_witness :
  ".pdf" ∈ pdf_file_list dot_pdf_os "/pdfs" [".pdf"] ∧ ".pdf" ≠ "".
Proof.
  assert (".pdf" ∈ pdf_file_list dot_pdf_os "/pdfs" [".pdf"]) as H
    by (vm_compute; apply list_elem_of_here).
  split; [exact H|].
  exact (pdf_file_list_no_empty_identifier dot_pdf_os "/pdfs" [".pdf"] ".pdf" H).
Defined.

(** ** The paths on a POSIX platform *)

Lemma string_app_assoc (a b c : string) : (a +:+ b) +:+ c = a +:+ b +:+ c.
Proof.
  induction a as [|x a IH]; [done|]. by rewrite !string_app_cons, IH.
Qed.









(** ** The window *)

Lemma string_app_empty_r (s : string) : s +:+ "" = s.
Proof. induction s as [|c s IH]; [done|]. by rewrite string_app_cons, IH. Qed.

Lemma saved_missing_parts_from (acc : string) (l : list string) :
  foldl (fun f part => f +:+ part +:+ NL) acc l
    = acc +:+ saved_missing_parts l.
Proof.
  unfold saved_missing_parts.
  induction l as [|x l IH] using rev_ind.
  - simpl. by rewrite string_app_empty_r.
  - rewrite !foldl_snoc, IH. by rewrite string_app_assoc.
Qed.

Lemma saved_missing_parts_cons (x : string) (l : list string) :
  saved_missing_parts (x :: l) = x +:+ NL +:+ saved_missing_parts l.
Proof.
  unfold saved_missing_parts at 1. simpl.
  by rewrite saved_missing_parts_from, string_app_empty_l, string_app_assoc.
Qed.

Lemma saved_line_split (x y r r' : string) :
  has_char Py.LF x = false → has_char Py.LF y = false →
  x +:+ NL +:+ r = y +:+ NL +:+ r' → x = y ∧ r = r'.
Proof.
  revert y. induction x as [|a x IH]; intros [|b y] Hx Hy H.
  - injection H as H. done.
  - injection H as Hb _. simpl in Hy. rewrite <- Hb in Hy. discriminate Hy.
  - injection H as Ha _. simpl in Hx. rewrite Ha in Hx. discriminate Hx.
  - rewrite !string_app_cons in H. injection H as -> H.
    simpl in Hx, Hy.
    apply orb_false_iff in Hx as [_ Hx]. apply orb_false_iff in Hy as [_ Hy].
    destruct (IH y Hx Hy H) as [-> ->]. done.
Qed.

(** X19. The text that [save_missing_parts] writes determines the list:
    two lists of identifiers without a line break in them that give the
    same text are the same list. *)
Theorem saved_missing_parts_injective (l l' : list string) :
  forallb (fun x => negb (has_char Py.LF x)) l = true →
  forallb (fun x => negb (has_char Py.LF x)) l' = true →
  saved_missing_parts l = saved_missing_parts l' →
  l = l'.
Proof.
  revert l'. induction l as [|x l IH]; intros [|y l'] Hl Hl' H.
  - done.
  - rewrite saved_missing_parts_cons in H. by destruct y.
  - rewrite saved_missing_parts_cons in H. by destruct x.
  - rewrite !saved_missing_parts_cons in H. simpl in Hl, Hl'.
    apply andb_true_iff in Hl as [Hx Hl]. apply andb_true_iff in Hl' as [Hy Hl'].
    apply negb_true_iff in Hx, Hy.
    destruct (saved_line_split _ _ _ _ Hx Hy H) as [-> Hr].
    f_equal. by apply IH.
Qed.

Lemma saved_missing_parts_injective_witness :
  (forallb (fun x => negb (has_char Py.LF x)) ["200"; "VG-7"] = true
   ∧ saved_missing_parts ["200"; "VG-7"] = "200" +:+ NL +:+ "VG-7" +:+ NL)
  ∧ ["200"; "VG-7"] = ["200"; "VG-7"].
Proof.
  assert (forallb (fun x => negb (has_char Py.LF x)) ["200"; "VG-7"] = true)
    as H by (vm_compute; reflexivity).
  split; [split; [exact H | vm_compute; reflexivity]|].
  apply (saved_missing_parts_injective ["200"; "VG-7"] ["200"; "VG-7"] H H).
  reflexivity.
Defined.

Section WindowProperties.

Context (os : OS).


End WindowProperties.

(** ** What the run leaves alone *)

Lemma frame_refl (touched : list string) (s : State) : frame touched s s.
Proof. split; [done|]. exists []. by rewrite app_nil_r. Qed.

Lemma frame_trans (touched : list string) (s1 s2 s3 : State) :
  frame touched s1 s2 → frame touched s2 s3 → frame touched s1 s3.
Proof.
  intros [Hf1 [l1 Hl1]] [Hf2 [l2 Hl2]]. split.
  - intros path Hp. by rewrite Hf2, Hf1.
  - exists (l1 ++ l2). by rewrite Hl2, Hl1, app_assoc.
Qed.

Lemma keeps_ret {A} (touched : list string) (a : A) :
  keeps (frame touched) (ret a).
Proof. intros s s' r [= <- _]. apply frame_refl. Qed.

Lemma keeps_raise {A} (touched : list string) (e : exn) :
  keeps (frame touched) (@raise A e).
Proof. intros s s' r [= <- _]. apply frame_refl. Qed.

Lemma keeps_bind {A B} (touched : list string) (m : M A) (k : A → M B) :
  keeps (frame touched) m → (∀ a, keeps (frame touched) (k a)) →
  keeps (frame touched) (bind m k).
Proof.
  intros Hm Hk s s' r. unfold bind.
  destruct (m s) as [s1 [e|a]] eqn:E.
  - intros [= <- _]. apply (Hm _ _ _ E).
  - intros H. eapply frame_trans; [apply (Hm _ _ _ E) | apply (Hk _ _ _ _ H)].
Qed.

Lemma keeps_try_except {A} (touched : list string) (body : M A)
    (handler : exn → M A) :
  keeps (frame touched) body → (∀ e, keeps (frame touched) (handler e)) →
  keeps (frame touched) (try_except body handler).
Proof.
  intros Hb Hh s s' r. unfold try_except.
  destruct (body s) as [s1 [e|a]] eqn:E.
  - intros H. eapply frame_trans; [apply (Hb _ _ _ E) | apply (Hh _ _ _ _ H)].
  - intros [= <- _]. apply (Hb _ _ _ E).
Qed.

Lemma keeps_print (touched : list string) (m : Msg) :
  keeps (frame touched) (print m).
Proof. intros s s' r [= <- _]. split; [done|]. by exists [m]. Qed.

Lemma keeps_percentage_kept (touched : list string) (f n : nat) :
  keeps (frame touched) (percentage_kept f n).
Proof. destruct n; [apply keeps_raise | apply keeps_ret]. Qed.

Section FrameProperties.

Context (os : OS).

Lemma keeps_write_file (touched : list string) (path : string) (f : File) :
  canonical os path ∈ touched → keeps (frame touched) (write_file os path f).
Proof.
  intros Hp s s' r. unfold write_file.
  destruct (writable os path); intros [= <- _]; [|apply frame_refl].
  split; [|exists []; by rewrite app_nil_r].
  intros q Hq. cbn [files]. apply lookup_insert_ne. by intros <-.
Qed.

Lemma keeps_remove (touched : list string) (path : string) :
  canonical os path ∈ touched → keeps (frame touched) (remove os path).
Proof.
  intros Hp s s' r [= <- _].
  split; [|exists []; by rewrite app_nil_r].
  intros q Hq. cbn [files]. apply lookup_delete_ne. by intros <-.
Qed.

Lemma keeps_read_excel (touched : list string) (path : string) :
  keeps (frame touched) (read_excel os path).
Proof.
  intros s s' r. unfold read_excel.
  destruct (files s !! canonical os path) as [[| df]|]; intros [= <- _];
    apply frame_refl.
Qed.

Lemma keeps_path_exists (touched : list string) (path : string) :
  keeps (frame touched) (path_exists os path).
Proof. intros s s' r [= <- _]. apply frame_refl. Qed.

Lemma keeps_get_pdf_file_list (touched : list string) (directory_path : string) :
  keeps (frame touched) (get_pdf_file_list os directory_path).
Proof.
  apply keeps_try_except.
  - destruct (listdir os directory_path); [apply keeps_ret | apply keeps_raise].
  - intros e. apply keeps_bind; [apply keeps_print | intros _; apply keeps_ret].
Qed.

(** X21. Whatever the platform, the paths and the files, and whether
    the run succeeds or fails: it changes no file other than the
    temporary listing and the output sheet, and it only adds lines to the
    console. *)
Theorem filter_bom_with_pdf_list_frame
    (excel_file_path pdf_directory_path : string) :
  keeps (frame [canonical os (temp_json_path_of os excel_file_path);
                canonical os (output_file_of os excel_file_path)])
        (filter_bom_with_pdf_list os excel_file_path pdf_directory_path).
Proof.
  unfold filter_bom_with_pdf_list.
  apply keeps_try_except;
    [|intros e; apply keeps_bind; [apply keeps_print | intros _; apply keeps_ret]].
  apply keeps_bind; [apply keeps_print | intros _].
  apply keeps_bind; [apply keeps_get_pdf_file_list | intros [|p ps]].
  { apply keeps_bind; [apply keeps_print | intros _; apply keeps_ret]. }
  cbv zeta.
  repeat first
    [ apply keeps_ret
    | apply keeps_print
    | apply keeps_read_excel
    | apply keeps_path_exists
    | apply keeps_percentage_kept
    | apply keeps_write_file; set_solver
    | apply keeps_remove; set_solver
    | apply keeps_bind; [|intros ?]
    | match goal with |- keeps _ (if ?b then _ else _) => destruct b end ].
Qed.

End FrameProperties.

Lemma filter_bom_with_pdf_list_repeatable_witness :
  (listdir round_trip_os "/pdfs" = Some ["VG-100.pdf"; "200.pdf"]
   ∧ pdf_file_list round_trip_os "/pdfs" ["VG-100.pdf"; "200.pdf"]
     = ["VG-100"; "200"]
   ∧ files round_trip_state !! canonical round_trip_os "/bom/BOM.xlsx"
     = Some (ExcelFile round_trip_bom)
   ∧ writable round_trip_os (temp_json_path_of round_trip_os "/bom/BOM.xlsx")
     = true
   ∧ writable round_trip_os (output_file_of round_trip_os "/bom/BOM.xlsx")
     = true
   ∧ canonical round_trip_os (temp_json_path_of round_trip_os "/bom/BOM.xlsx")
     ≠ canonical round_trip_os "/bom/BOM.xlsx"
   ∧ canonical round_trip_os (temp_json_path_of round_trip_os "/bom/BOM.xlsx")
     ≠ canonical round_trip_os (output_file_of round_trip_os "/bom/BOM.xlsx")
   ∧ canonical round_trip_os (output_file_of round_trip_os "/bom/BOM.xlsx")
     ≠ canonical round_trip_os "/bom/BOM.xlsx")
  ∧ snd (filter_bom_with_pdf_list round_trip_os "/bom/BOM.xlsx" "/pdfs"
           (fst (filter_bom_with_pdf_list round_trip_os "/bom/BOM.xlsx"
                   "/pdfs" round_trip_state)))
    = snd (filter_bom_with_pdf_list round_trip_os "/bom/BOM.xlsx" "/pdfs"
             round_trip_state).
Proof.
  assert (canonical round_trip_os (temp_json_path_of round_trip_os "/bom/BOM.xlsx")
     ≠ canonical round_trip_os "/bom/BOM.xlsx")
    as Hte by (vm_compute; discriminate).
  assert (canonical round_trip_os (temp_json_path_of round_trip_os "/bom/BOM.xlsx")
     ≠ canonical round_trip_os (output_file_of round_trip_os "/bom/BOM.xlsx"))
    as Hto by (vm_compute; discriminate).
  assert (canonical round_trip_os (output_file_of round_trip_os "/bom/BOM.xlsx")
          ≠ canonical round_trip_os "/bom/BOM.xlsx")
    as Hoe by (vm_compute; discriminate).
  split.
  - repeat split; try (vm_compute; reflexivity); assumption.
  - refine (proj1 (filter_bom_with_pdf_list_repeatable round_trip_os
                     "/bom/BOM.xlsx" "/pdfs" round_trip_state
                     ["VG-100.pdf"; "200.pdf"] "VG-100" ["200"]
                     (Row (Text "100") (Text "BRACKET") [])
                     [Row (Text "VG-200") (Text "PLATE") [];
                      Row (Text "300") (Text "COVER") []]
                     _ _ _ _ _ Hte Hto Hoe));
      vm_compute; reflexivity.
Defined.

Lemma sheet_aliased_with_listing_overwritten_witness :
  (listdir round_trip_os "/pdfs" = Some ["VG-100.pdf"; "200.pdf"]
   ∧ pdf_file_list round_trip_os "/pdfs" ["VG-100.pdf"; "200.pdf"]
     = ["VG-100"; "200"]
   ∧ writable round_trip_os
       (temp_json_path_of round_trip_os "/bom//temp_pdf_list.json")
     = true
   ∧ canonical round_trip_os
       (temp_json_path_of round_trip_os "/bom//temp_pdf_list.json")
     = canonical round_trip_os "/bom//temp_pdf_list.json")
  ∧ snd (filter_bom_with_pdf_list round_trip_os "/bom//temp_pdf_list.json"
           "/pdfs"
           (MkState {["/bom/temp_pdf_list.json" := ExcelFile round_trip_bom]}
              []))
    = inr (false, [])
  ∧ files (fst (filter_bom_with_pdf_list round_trip_os
                  "/bom//temp_pdf_list.json" "/pdfs"
                  (MkState
                     {["/bom/temp_pdf_list.json" := ExcelFile round_trip_bom]}
                     [])))
      !! "/bom/temp_pdf_list.json"
    = Some (JsonFile ["VG-100"; "200"] 2 "/pdfs").
Proof.
  split.
  - repeat split; vm_compute; reflexivity.
  - destruct (sheet_aliased_with_listing_overwritten round_trip_os
                "/bom//temp_pdf_list.json" "/pdfs"
                (MkState
                   {["/bom/temp_pdf_list.json" := ExcelFile round_trip_bom]} [])
                ["VG-100.pdf"; "200.pdf"] "VG-100" ["200"])
      as (Hr & Hf & _); try (vm_compute; reflexivity).
    split; [exact Hr|]. rewrite Hf. vm_compute; reflexivity.
Defined.
